(** * jjlpc: collector, analyzer and server of overlay comments

    A shallow embedding of the three Python scripts of the repository
    ([pa.py], [qgqx.py], [app.py]) and the properties of their
    line parsing, classification, report parsing, pagination and
    search code.

    Python values are modelled as follows: [int] is [Z]; [str] is a list
    of Unicode code points; [float] is an IEEE binary64 value
    ([spec_float] with 53 bits of precision); a [list] is a [list]; a
    [dict] the code only builds and reads by fixed keys is a record, a
    JSON object or a table of query parameters is a [gmap]; the body
    of a [try] block is a computation in the exception monad [exc], or
    returns the exception raised together with the state it leaves. *)

From Stdlib Require Import ZArith NArith QArith Lia List Bool Ascii String.
From Stdlib Require Import Floats.SpecFloat.
From stdpp Require Import base list gmap sorting.

Set Default Proof Using "Type".
Set Warnings "-register-all".
Local Open Scope Z_scope.

(* ===================================================================== *)
(** ** Python primitives used by the scripts *)
(* ===================================================================== *)

Module Py.

(** A character is its code point, a string the list of its characters. *)
Definition char := N.
Definition str := list char.

(** *** Source literals: UTF-8 bytes of the file to code points *)

Fixpoint utf8_decode (bs : list N) : str :=
  match bs with
  | [] => []
  | b :: r =>
      if (b <? 128)%N then b :: utf8_decode r
      else if (b <? 224)%N then
        match r with
        | c1 :: r' => ((b mod 32) * 64 + c1 mod 64)%N :: utf8_decode r'
        | _ => []
        end
      else if (b <? 240)%N then
        match r with
        | c1 :: c2 :: r' =>
            ((b mod 16) * 4096 + (c1 mod 64) * 64 + c2 mod 64)%N
              :: utf8_decode r'
        | _ => []
        end
      else
        match r with
        | c1 :: c2 :: c3 :: r' =>
            ((b mod 8) * 262144 + (c1 mod 64) * 4096
             + (c2 mod 64) * 64 + c3 mod 64)%N :: utf8_decode r'
        | _ => []
        end
  end.

Definition utf8 (s : string) : str :=
  utf8_decode (List.map N_of_ascii (list_ascii_of_string s)).

Definition chr_dot : char := 46%N.
Definition chr_tab : char := 9%N.
Definition chr_plus : char := 43%N.
Definition chr_minus : char := 45%N.
Definition chr_underscore : char := 95%N.

(** *** Exceptions *)

Inductive exn :=
| ValueError
| IndexError
| AttributeError
| RequestException
| XMLSyntaxError
| OverflowError.

(** A computation that returns a value or raises. *)
Definition exc (A : Type) : Type := exn + A.

Definition ret {A} (a : A) : exc A := inr a.
Definition raise {A} (e : exn) : exc A := inl e.
Definition bind {A B} (m : exc A) (k : A -> exc B) : exc B :=
  match m with
  | inl e => inl e
  | inr a => k a
  end.

(** *** Truthiness, [len], [enumerate] *)

Definition truthy {A} (l : list A) : bool :=
  match l with [] => false | _ :: _ => true end.

Definition len {A} (l : list A) : Z := Z.of_nat (length l).

Fixpoint enumerate {A} (start : Z) (l : list A) : list (Z * A) :=
  match l with
  | [] => []
  | x :: l' => (start, x) :: enumerate (start + 1) l'
  end.

(** *** Slices [l[k:]] and [l[:k]]: a negative bound counts from the
    end, a bound outside the list is clamped. *)

Definition slice_bound {A} (l : list A) (k : Z) : nat :=
  if k <? 0 then Z.to_nat (Z.max 0 (len l + k)) else Z.to_nat k.

Definition slice_from {A} (l : list A) (k : Z) : list A :=
  drop (slice_bound l k) l.

Definition slice_to {A} (l : list A) (k : Z) : list A :=
  take (slice_bound l k) l.

(** [l[k]] raises [IndexError] outside the list. *)
Definition index {A} (l : list A) (k : Z) : exc A :=
  let k' := if k <? 0 then len l + k else k in
  if k' <? 0 then raise IndexError
  else match l !! Z.to_nat k' with
       | Some x => ret x
       | None => raise IndexError
       end.

(** *** [str.find], [in] *)

Fixpoint is_prefix (p s : str) : bool :=
  match p, s with
  | [], _ => true
  | _ :: _, [] => false
  | a :: p', b :: s' => (a =? b)%N && is_prefix p' s'
  end.

Fixpoint find_at (sub s : str) (i : Z) : Z :=
  if is_prefix sub s then i
  else match s with
       | [] => -1
       | _ :: s' => find_at sub s' (i + 1)
       end.

(** [s.find(sub)]: the lowest index where [sub] starts, or [-1]. *)
Definition find (s sub : str) : Z := find_at sub s 0.

(** [sub in s]. *)
Fixpoint str_in (sub s : str) : bool :=
  is_prefix sub s
  || match s with
     | [] => false
     | _ :: s' => str_in sub s'
     end.

(** *** Whitespace and [str.strip] *)

(** The characters [str.isspace] accepts, which are the ones
    [str.strip()] removes. *)
Definition isspace (c : char) : bool :=
  ((9 <=? c) && (c <=? 13) || (28 <=? c) && (c <=? 32)
   || (c =? 133) || (c =? 160) || (c =? 5760)
   || (8192 <=? c) && (c <=? 8202)
   || (c =? 8232) || (c =? 8233) || (c =? 8239) || (c =? 8287)
   || (c =? 12288))%N.

Fixpoint lstrip_by (sp : char -> bool) (s : str) : str :=
  match s with
  | [] => []
  | c :: s' => if sp c then lstrip_by sp s' else s
  end.

Definition strip_by (sp : char -> bool) (s : str) : str :=
  rev (lstrip_by sp (rev (lstrip_by sp s))).

Definition strip (s : str) : str := strip_by isspace s.

(** *** [str.split(sep)] for a separator of one character *)

Fixpoint split (sep : char) (s : str) : list str :=
  match s with
  | [] => [[]]
  | c :: s' =>
      if (c =? sep)%N then [] :: split sep s'
      else match split sep s' with
           | h :: t => (c :: h) :: t
           | [] => [[c]]
           end
  end.

(** *** [int(str)] in base 10 *)

(** Code points of the digit zero of every Unicode decimal digit
    block; the nine characters after each are the digits 1 to 9. *)
Definition decimal_zeros : list N :=
  [ 0x30; 0x660; 0x6f0; 0x7c0; 0x966; 0x9e6; 0xa66; 0xae6; 0xb66; 0xbe6;
    0xc66; 0xce6; 0xd66; 0xde6; 0xe50; 0xed0; 0xf20; 0x1040; 0x1090;
    0x17e0; 0x1810; 0x1946; 0x19d0; 0x1a80; 0x1a90; 0x1b50; 0x1bb0;
    0x1c40; 0x1c50; 0xa620; 0xa8d0; 0xa900; 0xa9d0; 0xa9f0; 0xaa50;
    0xabf0; 0xff10; 0x104a0; 0x10d30; 0x11066; 0x110f0; 0x11136;
    0x111d0; 0x112f0; 0x11450; 0x114d0; 0x11650; 0x116c0; 0x11730;
    0x118e0; 0x11950; 0x11c50; 0x11d50; 0x11da0; 0x16a60; 0x16ac0;
    0x16b50; 0x1d7ce; 0x1d7d8; 0x1d7e2; 0x1d7ec; 0x1d7f6; 0x1e140;
    0x1e2f0; 0x1e950; 0x1fbf0 ]%N.

Fixpoint decimal_in (zeros : list N) (c : char) : option Z :=
  match zeros with
  | [] => None
  | z :: zs =>
      if ((z <=? c) && (c <? z + 10))%N then Some (Z.of_N (c - z))
      else decimal_in zs c
  end.

(** The decimal value of a digit character, if it is one. *)
Definition to_decimal (c : char) : option Z := decimal_in decimal_zeros c.

(** Whitespace [int] skips around the number: the C locale's for
    ASCII, the Unicode one above it. *)
Definition int_space (c : char) : bool :=
  ((9 <=? c) && (c <=? 13) || (c =? 32) || (127 <=? c) && isspace c)%N.

(** Digits with single underscores between them, most significant
    first: [acc] is the value read so far, [n] the number of digits,
    [after_digit] whether the previous character was a digit. *)
Fixpoint digits_value (s : str) (acc : Z) (n : Z) (after_digit : bool)
  : option (Z * Z) :=
  match s with
  | [] => if after_digit then Some (acc, n) else None
  | c :: s' =>
      if (c =? chr_underscore)%N then
        if after_digit then digits_value s' acc n false else None
      else match to_decimal c with
           | Some d => digits_value s' (10 * acc + d) (n + 1) true
           | None => None
           end
  end.

(** The default of [sys.get_int_max_str_digits()]. *)
Definition int_max_str_digits : Z := 4300.

Definition int_of_str (s : str) : exc Z :=
  let t := strip_by int_space s in
  let '(neg, body) :=
    match t with
    | c :: r =>
        if (c =? chr_minus)%N then (true, r)
        else if (c =? chr_plus)%N then (false, r)
        else (false, t)
    | [] => (false, t)
    end in
  match digits_value body 0 0 false with
  | Some (v, n) =>
      if int_max_str_digits <? n then raise ValueError
      else ret (if neg then - v else v)
  | None => raise ValueError
  end.

(** *** [re.search(re.escape(keyword), content)]: the escaped pattern
    matches the keyword literally, at any position of the content. *)
Definition re_search_escaped (keyword content : str) : bool :=
  str_in keyword content.

(** A text that is kept: not empty, and with no whitespace at either
    end. *)
Definition trimmed_text (d : str) : Prop := d <> [] /\ strip d = d.

(** *** [str(int)] *)

Fixpoint uint_digits (u : Decimal.uint) : str :=
  match u with
  | Decimal.Nil => []
  | Decimal.D0 u' => 48%N :: uint_digits u'
  | Decimal.D1 u' => 49%N :: uint_digits u'
  | Decimal.D2 u' => 50%N :: uint_digits u'
  | Decimal.D3 u' => 51%N :: uint_digits u'
  | Decimal.D4 u' => 52%N :: uint_digits u'
  | Decimal.D5 u' => 53%N :: uint_digits u'
  | Decimal.D6 u' => 54%N :: uint_digits u'
  | Decimal.D7 u' => 55%N :: uint_digits u'
  | Decimal.D8 u' => 56%N :: uint_digits u'
  | Decimal.D9 u' => 57%N :: uint_digits u'
  end.

(** The decimal digits of an [int], with a minus sign below zero. *)
Definition str_of_int (z : Z) : str :=
  match Z.to_int z with
  | Decimal.Pos u => uint_digits u
  | Decimal.Neg u => chr_minus :: uint_digits u
  end.

(** *** Reading a text file opened with [open(path, 'r')] *)

Definition chr_lf : char := 10%N.
Definition chr_cr : char := 13%N.
Definition chr_space : char := 32%N.

(** Universal newlines: ["\r\n"] and a lone ["\r"] are read as
    ["\n"]. *)
Fixpoint universal_newlines (s : str) : str :=
  match s with
  | [] => []
  | c :: rest =>
      if (c =? chr_cr)%N then
        chr_lf :: match rest with
                  | c' :: rest' =>
                      if (c' =? chr_lf)%N then universal_newlines rest'
                      else universal_newlines rest
                  | [] => []
                  end
      else c :: universal_newlines rest
  end.

(** The lines of a text, each with the ["\n"] that ends it. *)
Fixpoint split_lines (s : str) : list str :=
  match s with
  | [] => []
  | c :: rest =>
      if (c =? chr_lf)%N then [c] :: split_lines rest
      else match split_lines rest with
           | [] => [[c]]
           | l :: ls => (c :: l) :: ls
           end
  end.

(** What iterating over the file, or [f.readlines()], yields for a
    file that holds [text]. *)
Definition readlines (text : str) : list str :=
  split_lines (universal_newlines text).

(** *** [np.arange] on integers, [pd.cut(..., right=False)] *)

(** [np.arange(start, stop, step)] for a positive [step]. *)
Definition arange (start stop step : Z) : list Z :=
  (fun k => start + Z.of_nat k * step)
    <$> seq 0 (Z.to_nat ((stop - start + step - 1) / step)).

(** The number of the bin [[lo, hi)] between two consecutive edges that
    holds [v], counted from [k]; no bin for a value outside. *)
Fixpoint cut_from (k : nat) (edges : list Z) (v : Z) : option nat :=
  match edges with
  | lo :: rest =>
      match rest with
      | hi :: _ =>
          if (lo <=? v) && (v <? hi) then Some k else cut_from (S k) rest v
      | [] => None
      end
  | [] => None
  end.

Definition cut (edges : list Z) (v : Z) : option nat := cut_from 0 edges v.

End Py.

Notation "'do' x <- m ; k" := (Py.bind m (fun x => k))
  (at level 10, x name, m at level 100, k at level 200).

(* ===================================================================== *)
(** ** pa.py: the collector *)
(* ===================================================================== *)

Module Pa.
Import Py.

Definition DANMU_SAVE_PATH : str := utf8 "bilibili_danmu.txt".
Definition COMMENT_SAVE_PATH : str := utf8 "bilibili_comment.txt".

(** *** [get_video_cid] *)

(** What the lookup request brings back. *)
Inductive cid_lookup :=
| LookupRaises
    (** the request, [raise_for_status], [json()] or a key access raises *)
| LookupJson (code : Z) (cid : str)
    (** [data.get("code")] and [str(data["data"]["cid"])] *).

Definition get_video_cid (l : cid_lookup) : str :=
  match l with
  | LookupJson code cid => if code =? 0 then cid else []
  | LookupRaises => []
  end.

(** *** [crawl_danmu] *)

(** What the request for the XML document brings back. *)
Inductive danmu_fetch :=
| RequestFails
    (** [requests.get] or [raise_for_status] raises *)
| ParseFails
    (** [etree.fromstring] raises *)
| Parsed (d_tags : list (option str))
    (** the [text] of every [<d>] element, [None] for one without text *).

(** Lines 58-61: the loop over the [<d>] elements. It works on the
    list [danmu_list] of the enclosing function, so what was appended
    before an exception stays there. *)
Fixpoint collect_danmu (d_tags : list (option str)) (danmu_list : list str)
  : option exn * list str :=
  match d_tags with
  | [] => (None, danmu_list)
  | None :: _ => (Some AttributeError, danmu_list)
  | Some text :: d_tags' =>
      let danmu_content := strip text in
      if truthy danmu_content then
        collect_danmu d_tags' (danmu_list ++ [danmu_content])
      else collect_danmu d_tags' danmu_list
  end.

(** The [try] block: the exception raised, if any, and [danmu_list]
    when the block is left. *)
Definition crawl_danmu_try (f : danmu_fetch) (danmu_list : list str)
  : option exn * list str :=
  match f with
  | RequestFails => (Some RequestException, danmu_list)
  | ParseFails => (Some XMLSyntaxError, danmu_list)
  | Parsed d_tags => collect_danmu d_tags danmu_list
  end.

(** The handler only prints; [danmu_list] is returned either way. *)
Definition crawl_danmu (f : danmu_fetch) : list str :=
  (crawl_danmu_try f []).2.

(** *** [crawl_comments] *)

(** A reply object of the feed: the values its [get] calls return,
    and [local_time], what
    [time.strftime("%Y-%m-%d %H:%M:%S", time.localtime(ctime))] gives
    on the platform: the formatted local time, or the exception
    [time.localtime] raises for a time stamp outside the range it
    accepts. *)
Record reply := {
  uname : str;
  message : str;
  ctime : Z;
  local_time : exc str;
  like : Z;
  rcount : Z
}.

(** [comment_info]. *)
Record comment := {
  c_uname : str;
  c_message : str;
  c_time : str;
  c_like : Z;
  c_rcount : Z
}.

(** An element of [replies]: a reply object, or a value on which the
    [get] calls of lines 103-107 raise (a reply, member or content that
    is no object). *)
Inductive reply_item :=
| WellFormed (r : reply)
| Malformed.

(** What one request for a page brings back. *)
Inductive page_response :=
| FetchRaises
    (** lines 87-96 raise: network error, HTTP error, invalid JSON *)
| Page (code : Z) (replies : list reply_item)
    (** [data.get("code")] and the list under [data.replies] *).

Definition max_page : Z := 100.

(** Lines 101-110: the loop over [replies], on the shared
    [comment_list]. Building [comment_info] raises when a [get] call
    does or when the time stamp cannot be converted (line 105); what
    was appended before stays in the list. *)
Fixpoint add_replies (replies : list reply_item)
  (comment_list : list comment) : option exn * list comment :=
  match replies with
  | [] => (None, comment_list)
  | Malformed :: _ => (Some AttributeError, comment_list)
  | WellFormed r :: replies' =>
      match local_time r with
      | inl e => (Some e, comment_list)
      | inr published =>
          let comment_info :=
            {| c_uname := uname r; c_message := strip (message r);
               c_time := published; c_like := like r;
               c_rcount := rcount r |} in
          if truthy (c_message comment_info) then
            add_replies replies' (comment_list ++ [comment_info])
          else add_replies replies' comment_list
      end
  end.

(** How the [while] loop was left. *)
Inductive stop :=
| StopStatus  (** [break] at line 93: the page reports a non-zero code *)
| StopEmpty   (** [break] at line 99: the page has no replies *)
| StopCap     (** the condition [page < max_page] is false *).

Record outcome := {
  reason : stop;
  requests : nat;   (** the requests made (line 87) when the loop is left *)
  pages : Z;        (** the value of [page] *)
  comments : list comment
}.

(** The [while] loop. [responses n] is what the request number [n]
    (from 0) brings back and [attempt] the number of requests made so
    far; [fuel] bounds the number of turns, [None] means the loop is
    still running when it is used up. *)
Fixpoint crawl_loop (fuel : nat) (responses : nat -> page_response)
  (attempt : nat) (page : Z) (comment_list : list comment)
  : option outcome :=
  match fuel with
  | O => None
  | S fuel' =>
      if page <? max_page then
        match responses attempt with
        | FetchRaises =>
            crawl_loop fuel' responses (S attempt) page comment_list
        | Page code replies =>
            if negb (code =? 0) then
              Some {| reason := StopStatus; requests := S attempt;
                      pages := page; comments := comment_list |}
            else if negb (truthy replies) then
              Some {| reason := StopEmpty; requests := S attempt;
                      pages := page; comments := comment_list |}
            else
              match add_replies replies comment_list with
              | (None, comment_list') =>
                  crawl_loop fuel' responses (S attempt) (page + 1)
                    comment_list'
              | (Some _, comment_list') =>
                  crawl_loop fuel' responses (S attempt) page comment_list'
              end
        end
      else
        Some {| reason := StopCap; requests := attempt;
                pages := page; comments := comment_list |}
  end.

Definition crawl_comments_run (fuel : nat)
  (responses : nat -> page_response) : option outcome :=
  crawl_loop fuel responses 0 0 [].

Definition crawl_comments (fuel : nat) (responses : nat -> page_response)
  : option (list comment) :=
  comments <$> crawl_comments_run fuel responses.

(** *** [main] *)

(** The calls [main] makes, in order. *)
Inductive event :=
| GetCid
| CrawlDanmu
| SaveDanmu (data : list str)
| CrawlComments
| SaveComments (data : list comment)
| Finished.

Record world := {
  lookup : cid_lookup;
  danmu : danmu_fetch;
  comment_pages : nat -> page_response
}.

Definition main (w : world) (fuel : nat) : list event :=
  let cid := get_video_cid (lookup w) in
  if negb (truthy cid) then [GetCid]
  else
    let danmu_list := crawl_danmu (danmu w) in
    let saved := if truthy danmu_list then [SaveDanmu danmu_list] else [] in
    match crawl_comments fuel (comment_pages w) with
    | None => [GetCid; CrawlDanmu] ++ saved ++ [CrawlComments]
    | Some comment_list =>
        [GetCid; CrawlDanmu] ++ saved ++ [CrawlComments]
        ++ (if truthy comment_list then [SaveComments comment_list] else [])
        ++ [Finished]
    end.

(** *** Reading a sequence of page responses *)

(** Building [comment_info] from the element raises. *)
Definition reply_raises (x : reply_item) : bool :=
  match x with
  | Malformed => true
  | WellFormed r => match local_time r with
                    | inl _ => true
                    | inr _ => false
                    end
  end.

(** The request ends in the [except] branch: the fetch raises, or one of
    the replies of a page that is processed does. *)
Definition attempt_raises (r : page_response) : bool :=
  match r with
  | FetchRaises => true
  | Page code replies =>
      (code =? 0) && truthy replies && existsb reply_raises replies
  end.

(** The response makes the loop [break], and how. *)
Definition terminal (r : page_response) : option stop :=
  match r with
  | FetchRaises => None
  | Page code replies =>
      if negb (code =? 0) then Some StopStatus
      else if negb (truthy replies) then Some StopEmpty
      else None
  end.

(** The response completes a page: [page] is incremented. *)
Definition page_done (r : page_response) : bool :=
  match r with
  | FetchRaises => false
  | Page code replies =>
      (code =? 0) && truthy replies && negb (existsb reply_raises replies)
  end.

(** The pages completed by the first [n] requests. *)
Fixpoint pages_done (responses : nat -> page_response) (n : nat) : Z :=
  match n with
  | O => 0
  | S n' =>
      pages_done responses n' + (if page_done (responses n') then 1 else 0)
  end.

(** The requests among the first [n] that ended in the [except]
    branch. *)
Fixpoint raised_before (responses : nat -> page_response) (n : nat) : Z :=
  match n with
  | O => 0
  | S n' =>
      raised_before responses n'
      + (if attempt_raises (responses n') then 1 else 0)
  end.

(** Request number [n] is where the loop can be left: its response
    makes the loop [break], or [max_page] pages are complete before
    it. *)
Definition stop_event (responses : nat -> page_response) (n : nat) : Prop :=
  terminal (responses n) <> None \/ pages_done responses n = max_page.

(** The loop was left at the first request number [n] at which it
    could be: no earlier response made it [break] and fewer than
    [max_page] pages were complete before each earlier request. Either
    the cap is reached at [n], and request [n] is not made, or the
    response to request [n] is the one that makes the loop [break]. *)
Definition stops_first (responses : nat -> page_response) (o : outcome)
  : Prop :=
  exists n : nat,
    pages o = pages_done responses n
    /\ (forall i : nat, (i < n)%nat ->
          terminal (responses i) = None
          /\ pages_done responses i < max_page)
    /\ (reason o = StopCap
          /\ pages_done responses n = max_page
          /\ requests o = n
        \/ pages_done responses n < max_page
          /\ terminal (responses n) = Some (reason o)
          /\ requests o = S n).

(** One more request than counted by pages and exceptions when the
    loop is left by [break]. *)
Definition by_break (s : stop) : Z :=
  match s with
  | StopCap => 0
  | StopStatus | StopEmpty => 1
  end.

(** *** [save_data] with [data_type="danmu"] *)

(** Line 135: the line written for the [idx]-th overlay comment. *)
Definition danmu_line (idx : Z) (danmu : str) : str :=
  str_of_int idx ++ utf8 ". " ++ danmu ++ [chr_lf].

(** Lines 134-135: the text the file holds after the loop. *)
Definition save_danmu_text (data : list str) : str :=
  concat ((fun id => danmu_line id.1 id.2) <$> enumerate 1 data).

(** The lines written, numbered from [k]. *)
Definition danmu_lines (k : Z) (data : list str) : list str :=
  (fun id => danmu_line id.1 id.2) <$> enumerate k data.

(** *** What a request adds to [comment_list] *)

Definition kept_comment (c : comment) : Prop := trimmed_text (c_message c).

(** The comments appended while the response is handled, up to the
    first reply that raises. *)
Definition appended (r : page_response) : list comment :=
  match r with
  | FetchRaises => []
  | Page code replies =>
      if negb (code =? 0) then [] else (add_replies replies []).2
  end.

(** *** Sample data *)

Definition sample_reply : reply :=
  {| uname := utf8 "u1"; message := utf8 " nice "; ctime := 1700000000;
     local_time := inr (utf8 "2023-11-15 06:13:20");
     like := 3; rcount := 0 |}.

(** A reply whose time stamp [time.localtime] rejects. *)
Definition far_future_reply : reply :=
  {| uname := utf8 "u2"; message := utf8 "late"; ctime := 10 ^ 18;
     local_time := inl OverflowError;
     like := 0; rcount := 0 |}.

Definition sample_comment : comment :=
  {| c_uname := utf8 "u1"; c_message := utf8 "nice";
     c_time := utf8 "2023-11-15 06:13:20"; c_like := 3; c_rcount := 0 |}.

(** Every request raises. *)
Definition always_failing : nat -> page_response := fun _ => FetchRaises.

(** The first request is answered with a non-zero code and one reply. *)
Definition refused : nat -> page_response :=
  fun _ => Page (-412) [WellFormed sample_reply].

(** Two requests raise, the third brings a page of one reply, the fourth
    an empty page. *)
Definition two_failures : nat -> page_response :=
  fun n => match n with
           | 0%nat | 1%nat => FetchRaises
           | 2%nat => Page 0 [WellFormed sample_reply]
           | _ => Page 0 []
           end.

(** A page whose second reply raises on its time stamp, then the page
    without that reply, then an empty page. *)
Definition retried_page : nat -> page_response :=
  fun n => match n with
           | 0%nat =>
               Page 0 [WellFormed sample_reply; WellFormed far_future_reply]
           | 1%nat => Page 0 [WellFormed sample_reply]
           | _ => Page 0 []
           end.

(** An empty page first; every later request raises. *)
Definition empty_then_raise : nat -> page_response :=
  fun n => match n with
           | 0%nat => Page 0 []
           | _ => FetchRaises
           end.

(** A run in which the XML document holds two overlay comments and a
    blank one. *)
Definition two_danmu_world : world :=
  {| lookup := LookupJson 0 (utf8 "12345");
     danmu := Parsed [Some (utf8 " 3.5 stars! "); Some (utf8 "  ");
                      Some (utf8 "666")];
     comment_pages := two_failures |}.

Definition failed_danmu_world : world :=
  {| lookup := LookupJson 0 (utf8 "12345");
     danmu := ParseFails;
     comment_pages := two_failures |}.

End Pa.

(* ===================================================================== *)
(** ** qgqx.py: the analyzer *)
(* ===================================================================== *)

Module Qgqx.
Import Py.

(** *** [read_danmu_file] *)

(** A row of the data frame: [{'content': ..., 'time': ...}]. *)
Record danmu := { content : str; time : Z }.

(** Lines 22-26: the text after the first period, or the whole line. *)
Definition line_content (line : str) : str :=
  let dot_pos := find line [chr_dot] in
  if negb (dot_pos =? -1) then strip (slice_from line (dot_pos + 1))
  else strip line.

(** Line 30. *)
Definition time_stamp (i : Z) : Z := (i - 1) mod 1000.

(** The body of the [try] block for line number [i]. *)
Definition parse_line (i : Z) (line : str) : exc danmu :=
  let content := line_content line in
  let time_stamp := time_stamp i in
  ret {| content := content; time := time_stamp |}.

(** The row built for a numbered line. *)
Definition row_of (il : Z * str) : danmu :=
  {| content := line_content il.2; time := time_stamp il.1 |}.

(** One turn of the loop: append the row, or report the exception and
    go on with the next line. *)
Definition read_step (danmu_list : list danmu) (il : Z * str)
  : list danmu :=
  match parse_line il.1 il.2 with
  | inr d => danmu_list ++ [d]
  | inl _ => danmu_list
  end.

(** [lines] is what iterating over the open file yields. *)
Definition read_danmu_file (lines : list str) : list danmu :=
  fold_left read_step (enumerate 1 lines) [].

(** *** [classify_sentiment] *)

(** A Python [float]: IEEE binary64. *)
Definition float := spec_float.
Definition prec : Z := 53.
Definition emax : Z := 1024.

(** The value a decimal literal [num/den] denotes: the quotient
    rounded to the nearest binary64 value, ties to even. *)
Definition float_lit (num den : Z) : float :=
  SFdiv prec emax (binary_normalize prec emax num 0 false)
                  (binary_normalize prec emax den 0 false).

Definition lit_0_6 : float := Eval vm_compute in float_lit 6 10.
Definition lit_0_4 : float := Eval vm_compute in float_lit 4 10.

(** The number a finite float stands for: its signed mantissa times
    two to its exponent. *)
Definition float_value (x : float) : option Q :=
  match x with
  | S754_zero _ => Some 0%Q
  | S754_finite s m e =>
      let n := if s then Zneg m else Zpos m in
      Some match e with
           | Zneg p => (n # 2 ^ p)%Q
           | _ => inject_Z (n * 2 ^ e)
           end
  | _ => None
  end.

Definition float_lt (a b : float) : bool := SFltb a b.
Definition float_gt (a b : float) : bool := SFltb b a.

Definition positive_label : str := utf8 "正面".
Definition negative_label : str := utf8 "负面".
Definition neutral_label : str := utf8 "中性".

(** The score [get_sentiment_score] falls back to. *)
Definition lit_0_5 : float := Eval vm_compute in float_lit 5 10.

Definition classify_sentiment (score : float) : str :=
  if float_gt score lit_0_6 then positive_label
  else if float_lt score lit_0_4 then negative_label
  else neutral_label.

(** *** [export_word_freq_data] *)

(** An entry of the exported list: [{"word", "freq", "pos"}]. *)
Record word_freq := { word : str; freq : Z; pos : str }.

Definition word_label : str := utf8 "词语".
Definition freq_label : str := utf8 "词频".
Definition unknown_pos : str := utf8 "未知".

(** Lines 176-180: the dictionary built inside the [try] block. *)
Definition make_entry (parts : list str) : exc word_freq :=
  do w <- index parts 0;
  do f_text <- index parts 1;
  do f <- int_of_str f_text;
  do p <- (if len parts >? 2 then index parts 2 else ret unknown_pos);
  ret {| word := w; freq := f; pos := p |}.

(** The loop over [enumerate(f)]; only [ValueError] is caught. *)
Fixpoint export_loop (rows : list (Z * str)) (word_freq_list : list word_freq)
  : exc (list word_freq) :=
  match rows with
  | [] => ret word_freq_list
  | (i, line) :: rows' =>
      if i <? 2 then export_loop rows' word_freq_list
      else if str_in word_label line && str_in freq_label line then
        export_loop rows' word_freq_list
      else if truthy (strip line) then
        let parts := split chr_tab (strip line) in
        if len parts >=? 2 then
          match make_entry parts with
          | inr e => export_loop rows' (word_freq_list ++ [e])
          | inl ValueError => export_loop rows' word_freq_list
          | inl e => raise e
          end
        else export_loop rows' word_freq_list
      else export_loop rows' word_freq_list
  end.

Definition export_word_freq_data (lines : list str)
  : exc (list word_freq) :=
  export_loop (enumerate 0 lines) [].

(** The report parsing in words, fields being those of the trimmed
    line: what one line after the two header lines contributes. A line
    that holds both column names or is blank gives nothing; otherwise
    the line, without the whitespace at its ends, is split on tab; with
    fewer than two fields, or a second field that is no integer, it
    gives nothing; else it gives the first field as word, the integer
    of the second as frequency and the third, if any, as part of
    speech. *)
Definition report_row (line : str) : option word_freq :=
  if str_in word_label line && str_in freq_label line then None
  else if negb (truthy (strip line)) then None
  else match split chr_tab (strip line) with
       | w :: f_text :: rest =>
           match int_of_str f_text with
           | inr f =>
               Some {| word := w; freq := f;
                       pos := match rest with
                              | p :: _ => p
                              | [] => unknown_pos
                              end |}
           | inl _ => None
           end
       | _ => None
       end.

(** The same reading with the line itself split on tab, as the claim
    words it. *)
Definition claimed_row (line : str) : option word_freq :=
  if str_in word_label line && str_in freq_label line then None
  else if negb (truthy (strip line)) then None
  else match split chr_tab line with
       | w :: f_text :: rest =>
           match int_of_str f_text with
           | inr f =>
               Some {| word := w; freq := f;
                       pos := match rest with
                              | p :: _ => p
                              | [] => unknown_pos
                              end |}
           | inl _ => None
           end
       | _ => None
       end.

(** The word of an entry is not empty, holds no tab and does not start
    with whitespace. *)
Definition word_ok (e : word_freq) : Prop :=
  word e <> []
  /\ (chr_tab ∉ word e)
  /\ (forall c, head (word e) = Some c -> isspace c = false).

(** *** [get_sentiment_score], [analyze_danmu_sentiment] *)

(** [SnowNLP(text).sentiments] is given by [snownlp]; whatever it
    raises is replaced by 0.5. *)
Definition get_sentiment_score (snownlp : str -> exc float) (text : str)
  : float :=
  match snownlp text with
  | inr s => s
  | inl _ => lit_0_5
  end.

(** Selecting a column the frame does not have. *)
Inductive frame_exn :=
| KeyError (column : str).

(** A row of the frame the analysis returns: the two columns read from
    the file, the score, the class and the time bin. *)
Record scored := {
  s_content : str;
  s_time : Z;
  s_score : float;
  s_type : str;
  s_time_bin : option nat
}.

(** Line 100: [np.arange(0, 1001, 50)]. *)
Definition time_bins : list Z := arange 0 1001 50.

Definition score_row (snownlp : str -> exc float) (d : danmu) : scored :=
  let score := get_sentiment_score snownlp (content d) in
  {| s_content := content d;
     s_time := time d;
     s_score := score;
     s_type := classify_sentiment score;
     s_time_bin := cut time_bins (time d) |}.

(** The frame [analyze_danmu_sentiment] returns (lines 63, 68, 69 and
    100; the rest of the function prints and plots). A frame built from
    an empty list has no column, and selecting ["content"] raises. *)
Definition analyze_danmu_sentiment (snownlp : str -> exc float)
  (lines : list str) : frame_exn + list scored :=
  let df := read_danmu_file lines in
  if truthy df then inr (score_row snownlp <$> df)
  else inl (KeyError (utf8 "content")).

(** *** [export_sentiment_data]: the sample *)




(** *** Sample data *)

(** The classes in rising order. *)
Definition class_rank (label : str) : Z :=
  if bool_decide (label = positive_label) then 2
  else if bool_decide (label = negative_label) then 0
  else 1.

(** The scores written 0.39 and 0.61. *)
Definition lit_0_39 : float := Eval vm_compute in float_lit 39 100.
Definition lit_0_61 : float := Eval vm_compute in float_lit 61 100.

(** A scorer that fails on every text. *)
Definition failing_scorer : str -> exc float := fun _ => raise ValueError.

Definition tabbed (fields : list str) : str :=
  match fields with
  | [] => []
  | f :: fs => f ++ concat ((fun x => chr_tab :: x) <$> fs)
  end.

(** The row of the specification's example, and a small report: two
    header lines, the column names, the row, and a row whose second
    field is no number. *)
Definition sample_row : str :=
  tabbed [utf8 "研究"; utf8 "120"; utf8 "名词"].

(** A report whose only row starts with a tab. *)
Definition leading_tab_report : list str :=
  [ utf8 "# top 300" ++ [10%N];
    utf8 "----------" ++ [10%N];
    [chr_tab] ++ tabbed [utf8 "lead"; utf8 "3"] ].

Definition sample_report : list str :=
  [ utf8 "# top 300" ++ [10%N];
    utf8 "----------" ++ [10%N];
    tabbed [word_label; freq_label; utf8 "词性"] ++ [10%N];
    sample_row ++ [10%N];
    tabbed [utf8 "方法"; utf8 "many"; utf8 "名词"] ++ [10%N];
    tabbed [utf8 "数据"; utf8 "7"] ++ [10%N] ].

End Qgqx.

(* ===================================================================== *)
(** ** app.py: the server *)
(* ===================================================================== *)

Module App.
Import Py.

(** JSON values. *)
Inductive json :=
| JNull
| JInt (n : Z)
| JStr (s : str)
| JList (l : list json)
| JObj (o : gmap str json).

(** What [jsonify] returns: the body and the status of the response. *)
Record response := { status_code : Z; body : gmap str json }.

Definition jsonify (d : gmap str json) : response :=
  {| status_code := 200; body := d |}.

(** The module-level data loaded once when the server starts. *)
Record artifacts := {
  word_freq_data : list json;
  sentiment_data : json;
  bilibili_danmu : list str
}.

(** [request.args.get(key, default)] *)
Definition args_get (args : gmap str str) (key : str) (default : str)
  : str :=
  match args !! key with
  | Some v => v
  | None => default
  end.

(** [request.args.get(key, default, type=int)]: the default also
    replaces a value [int] rejects. *)
Definition args_get_int (args : gmap str str) (key : str) (default : Z)
  : Z :=
  match args !! key with
  | Some v => match int_of_str v with
              | inr n => n
              | inl _ => default
              end
  | None => default
  end.

Definition k_status : str := utf8 "status".
Definition k_data : str := utf8 "data".
Definition k_message : str := utf8 "message".
Definition k_keyword : str := utf8 "keyword".
Definition k_total : str := utf8 "total".
Definition k_limit : str := utf8 "limit".
Definition k_index : str := utf8 "index".
Definition k_content : str := utf8 "content".

(** *** [get_word_frequency] *)

Definition top_words (a : artifacts) : list json :=
  slice_to (word_freq_data a) 100.

Definition get_word_frequency (a : artifacts) : response :=
  jsonify (<[k_status := JStr (utf8 "success")]>
           (<[k_data := JList (top_words a)]> ∅)).

(** *** [get_sentiment_data] *)

Definition get_sentiment_data (a : artifacts) : response :=
  jsonify (<[k_status := JStr (utf8 "success")]>
           (<[k_data := sentiment_data a]> ∅)).

(** *** [search_keyword] *)

(** An element of [results]: [{'index': i, 'content': content}]. *)
Record hit := { index : Z; content : str }.

Definition hit_json (h : hit) : json :=
  JObj (<[k_index := JInt (index h)]>
        (<[k_content := JStr (content h)]> ∅)).

(** Lines 62-66. *)
Definition line_content (line : str) : str :=
  let dot_pos := find line [chr_dot] in
  if negb (dot_pos =? -1) then strip (slice_from line (dot_pos + 1))
  else strip line.

(** Lines 59-79: the loop over [enumerate(bilibili_danmu, 1)], left
    by [break] when, after an entry was appended, [results] holds at
    least [limit] entries. Nothing in the [try] block raises on a
    [str], so its handler is left out. *)
Fixpoint search_loop (keyword : str) (limit : Z) (rows : list (Z * str))
  (results : list hit) : list hit :=
  match rows with
  | [] => results
  | (i, line) :: rows' =>
      let content := line_content line in
      if re_search_escaped keyword content then
        let results' := results ++ [{| index := i; content := content |}] in
        if len results' >=? limit then results'
        else search_loop keyword limit rows' results'
      else search_loop keyword limit rows' results
  end.

Definition search_results (a : artifacts) (keyword : str) (limit : Z)
  : list hit :=
  search_loop keyword limit (enumerate 1 (bilibili_danmu a)) [].

Definition search_keyword (a : artifacts) (args : gmap str str)
  : response :=
  let keyword := args_get args k_keyword [] in
  let limit := args_get_int args k_limit 50 in
  if negb (truthy keyword) then
    jsonify (<[k_status := JStr (utf8 "error")]>
             (<[k_message := JStr (utf8 "请输入关键词")]> ∅))
  else
    let results := search_results a keyword limit in
    jsonify (<[k_status := JStr (utf8 "success")]>
             (<[k_keyword := JStr keyword]>
              (<[k_total := JInt (len results)]>
               (<[k_data := JList (hit_json <$> results)]> ∅)))).

(** Every line whose content holds the keyword, with its number, in file
    order: what a search without a limit would find. *)
Definition hit_of (il : Z * str) : hit :=
  {| index := il.1; content := line_content il.2 |}.

Definition matches (keyword : str) (il : Z * str) : bool :=
  re_search_escaped keyword (line_content il.2).

Definition all_hits (keyword : str) (lines : list str) : list hit :=
  hit_of <$> List.filter (matches keyword) (enumerate 1 lines).

(** *** Loading the overlay file *)

(** Lines 11-19: the two parsed JSON documents and the lines of the
    overlay file, [f.readlines()]. *)
Definition load (word_freq : list json) (sentiment : json)
  (danmu_text : str) : artifacts :=
  {| word_freq_data := word_freq;
     sentiment_data := sentiment;
     bilibili_danmu := readlines danmu_text |}.

(** *** Sample data *)

(** The overlay file of the specification's search example. *)
Definition cats_and_dogs : artifacts :=
  {| word_freq_data := [];
     sentiment_data := JNull;
     bilibili_danmu :=
       [ utf8 "1. I love cats" ++ [10%N];
         utf8 "2. dogs are great" ++ [10%N];
         utf8 "3. I love dogs" ++ [10%N] ] |}.

(** Query strings: [?limit=5], [?keyword=love&limit=1],
    [?keyword=love&limit=0]. *)
Definition only_limit : gmap str str := {[ k_limit := utf8 "5" ]}.
Definition love_limit_1 : gmap str str :=
  <[k_keyword := utf8 "love"]> {[ k_limit := utf8 "1" ]}.
Definition love_limit_0 : gmap str str :=
  <[k_keyword := utf8 "love"]> {[ k_limit := utf8 "0" ]}.

(** [?keyword=love&limit=ten] *)
Definition love_limit_ten : gmap str str :=
  <[k_keyword := utf8 "love"]> {[ k_limit := utf8 "ten" ]}.

End App.

(* ===================================================================== *)
(** ** Properties *)
(* ===================================================================== *)

Import Py.

(** *** Facts about the primitives *)

Section PyFacts.

Lemma len_nonneg {A} (l : list A) : 0 <= len l.
Proof. unfold len. lia. Qed.

Lemma len_app {A} (l k : list A) : len (l ++ k) = len l + len k.
Proof. unfold len. rewrite length_app. lia. Qed.

Lemma slice_from_nonneg {A} (l : list A) (k : Z) :
  0 <= k -> slice_from l k = drop (Z.to_nat k) l.
Proof.
  intros Hk. unfold slice_from, slice_bound.
  destruct (Z.ltb_spec k 0); [lia | reflexivity].
Qed.

Lemma slice_to_nonneg {A} (l : list A) (k : Z) :
  0 <= k -> slice_to l k = take (Z.to_nat k) l.
Proof.
  intros Hk. unfold slice_to, slice_bound.
  destruct (Z.ltb_spec k 0); [lia | reflexivity].
Qed.

Lemma is_prefix_single (c x : char) (s : str) :
  is_prefix [c] (x :: s) = (c =? x)%N.
Proof. simpl. apply andb_true_r. Qed.


(** The first occurrence of a character is where [find] points. *)
Lemma find_at_first (c : char) (pre post : str) (i : Z) :
  c ∉ pre -> find_at [c] (pre ++ c :: post) i = i + len pre.
Proof.
  revert i. induction pre as [|x pre IH]; intros i Hc.
  - cbn [app find_at]. rewrite is_prefix_single, N.eqb_refl.
    unfold len. simpl. lia.
  - apply not_elem_of_cons in Hc as [Hx Hs].
    cbn [app find_at]. rewrite is_prefix_single.
    destruct (N.eqb_spec c x); [contradiction|].
    rewrite IH by assumption. unfold len. simpl length. lia.
Qed.

(** [strip_by] removes a run of [sp] characters at each end and
    nothing else; what is left neither starts nor ends with one. *)
Lemma lstrip_by_spec (sp : char -> bool) (s : str) :
  exists ws : str,
    s = ws ++ lstrip_by sp s
    /\ Forall (fun c => sp c = true) ws
    /\ (forall c, head (lstrip_by sp s) = Some c -> sp c = false).
Proof.
  induction s as [|x s (ws & Hs & Hws & Hhd)]; cbn [lstrip_by].
  - exists []. repeat split; [constructor|discriminate].
  - destruct (sp x) eqn:Hx.
    + exists (x :: ws). split; [now rewrite Hs at 1|].
      split; [now constructor|exact Hhd].
    + exists []. split; [reflexivity|]. split; [constructor|].
      intros c [= <-]. exact Hx.
Qed.

Lemma strip_by_spec (sp : char -> bool) (s : str) :
  exists l r : str,
    s = l ++ strip_by sp s ++ r
    /\ Forall (fun c => sp c = true) l
    /\ Forall (fun c => sp c = true) r
    /\ (forall c, head (strip_by sp s) = Some c -> sp c = false)
    /\ (forall c, last (strip_by sp s) = Some c -> sp c = false).
Proof.
  unfold strip_by.
  destruct (lstrip_by_spec sp s) as (l & Hl & Hlsp & Hhd).
  destruct (lstrip_by_spec sp (rev (lstrip_by sp s))) as (r & Hr & Hrsp & Hlast).
  set (t := lstrip_by sp s) in *.
  set (u := lstrip_by sp (rev t)) in *.
  assert (Ht : t = rev u ++ rev r).
  { rewrite <- rev_app_distr, <- Hr. now rewrite rev_involutive. }
  exists l, (rev r). split; [now rewrite <- Ht|].
  split; [exact Hlsp|]. split.
  { apply Forall_forall. intros c Hc. rewrite Forall_forall in Hrsp.
    apply Hrsp. apply list_elem_of_In. apply list_elem_of_In in Hc.
    now apply in_rev. }
  split.
  - intros c Hc. apply Hhd. rewrite Ht.
    destruct (rev u); [discriminate Hc|exact Hc].
  - intros c Hc. apply Hlast. destruct u as [|x u]; [discriminate Hc|].
    cbn [rev] in Hc. rewrite last_snoc in Hc. exact Hc.
Qed.

Lemma enumerate_length {A} (l : list A) (k : Z) :
  length (enumerate k l) = length l.
Proof. revert k. induction l; intros k; simpl; [|rewrite IHl]; reflexivity. Qed.

Lemma enumerate_lookup {A} (l : list A) (k : Z) (n : nat) :
  enumerate k l !! n = (fun x => (k + Z.of_nat n, x)) <$> l !! n.
Proof.
  revert k n. induction l as [|x l IH]; intros k n; [now destruct n|].
  destruct n as [|n]; simpl.
  - now rewrite Z.add_0_r.
  - rewrite IH. destruct (l !! n); simpl; [|reflexivity].
    do 2 f_equal. lia.
Qed.

End PyFacts.

(** *** The analyzer's line parsing *)

Section ReadDanmu.
Import Qgqx.

Lemma read_step_appends (acc : list danmu) (il : Z * str) :
  read_step acc il = acc ++ [row_of il].
Proof. reflexivity. Qed.

Lemma read_fold (rows : list (Z * str)) (acc : list danmu) :
  fold_left read_step rows acc = acc ++ (row_of <$> rows).
Proof.
  revert acc. induction rows as [|r rows IH]; intros acc; simpl.
  - now rewrite app_nil_r.
  - rewrite IH, read_step_appends, <- app_assoc. reflexivity.
Qed.

Lemma read_danmu_file_rows (lines : list str) :
  read_danmu_file lines = row_of <$> enumerate 1 lines.
Proof. unfold read_danmu_file. now rewrite read_fold. Qed.

Lemma line_content_split (line pre post : str) :
  line = pre ++ chr_dot :: post -> chr_dot ∉ pre ->
  line_content line = strip post.
Proof.
  intros -> Hpre. unfold line_content, find.
  rewrite find_at_first by assumption.
  pose proof (len_nonneg pre) as Hlen.
  destruct (Z.eqb_spec (0 + len pre) (-1)); [lia|]. cbn [negb].
  rewrite slice_from_nonneg by lia. f_equal.
  replace (Z.to_nat (0 + len pre + 1)) with (length pre + 1)%nat
    by (unfold len; lia).
  rewrite drop_app_add'; [reflexivity|lia].
Qed.


End ReadDanmu.


(** C9. The synthetic time of the i-th line (counted from 1) is
    (i-1) mod 1000: line 1 gets 0, line 1001 gets 0, line 1500 gets
    499. *)
Theorem synthetic_time (lines : list str) (i : Z) :
  1 <= i <= len lines ->
  Qgqx.time <$> Qgqx.read_danmu_file lines !! Z.to_nat (i - 1)
    = Some ((i - 1) mod 1000)
  /\ Qgqx.time_stamp 1 = 0
  /\ Qgqx.time_stamp 1001 = 0
  /\ Qgqx.time_stamp 1500 = 499.
Proof.
  intros Hi. split; [|repeat split].
  rewrite read_danmu_file_rows, list_lookup_fmap, enumerate_lookup.
  unfold len in Hi.
  destruct (lookup_lt_is_Some_2 lines (Z.to_nat (i - 1))) as [l Hl]; [lia|].
  rewrite Hl. simpl. unfold Qgqx.time_stamp. do 2 f_equal. lia.
Qed.

Lemma synthetic_time_witness :
  Qgqx.time <$> Qgqx.read_danmu_file [utf8 "1. a"; utf8 "2. b"]
                  !! Z.to_nat (2 - 1)
    = Some ((2 - 1) mod 1000)
  /\ Qgqx.time_stamp 1 = 0
  /\ Qgqx.time_stamp 1001 = 0
  /\ Qgqx.time_stamp 1500 = 499.
Proof. apply (synthetic_time [utf8 "1. a"; utf8 "2. b"] 2). vm_compute. split; discriminate. Defined.

(** C10. Parsing a line never raises, so the handler of the loop is
    never entered; every line of the file gives exactly one
    {content, time} row, in order, and the number of rows is the number
    of lines. *)
Theorem read_danmu_file_total (lines : list str) :
  (forall (i : Z) (line : str),
      Qgqx.parse_line i line
      = inr {| Qgqx.content := Qgqx.line_content line;
               Qgqx.time := Qgqx.time_stamp i |})
  /\ Qgqx.read_danmu_file lines
     = (fun il => {| Qgqx.content := Qgqx.line_content il.2;
                     Qgqx.time := Qgqx.time_stamp il.1 |})
         <$> enumerate 1 lines
  /\ length (Qgqx.read_danmu_file lines) = length lines.
Proof.
  split; [reflexivity|]. split.
  - apply read_danmu_file_rows.
  - now rewrite read_danmu_file_rows, length_fmap, enumerate_length.
Qed.

(** *** The server's endpoints *)

Ltac key_ne :=
  let H := fresh in intros H; vm_compute in H; discriminate H.

Ltac map_lookup :=
  repeat first
    [ rewrite lookup_insert_eq
    | rewrite lookup_insert_ne by key_ne
    | rewrite lookup_empty ].

(** C8. The word-frequency endpoint returns the first
    min(100, length) entries of the loaded artifact, in the stored
    order: a prefix of the artifact, never more than 100 entries. *)
Theorem word_frequency_first_100 (a : App.artifacts) :
  exists top : list App.json,
    App.body (App.get_word_frequency a) !! App.k_data = Some (App.JList top)
    /\ top = take 100 (App.word_freq_data a)
    /\ length top = Nat.min 100 (length (App.word_freq_data a))
    /\ (length top <= 100)%nat
    /\ top `prefix_of` App.word_freq_data a
    /\ (forall i : nat, (i < length top)%nat ->
                        top !! i = App.word_freq_data a !! i).
Proof.
  exists (App.top_words a).
  assert (Htop : App.top_words a = take 100 (App.word_freq_data a)).
  { unfold App.top_words. now rewrite slice_to_nonneg by lia. }
  split; [|split; [exact Htop|]].
  { unfold App.get_word_frequency, App.jsonify. cbn [App.body].
    now map_lookup. }
  rewrite Htop. split; [apply length_take|]. split.
  { rewrite length_take. lia. }
  split.
  { apply prefix_take. }
  intros i Hi. rewrite length_take in Hi.
  apply lookup_take_lt. lia.
Qed.

(** C7. A search request whose keyword parameter is absent or empty is
    answered with status code 200 and a payload that holds exactly the
    keys status (with value "error") and message: no data, total or
    keyword key. *)
Theorem empty_keyword_error (a : App.artifacts) (args : gmap str str) :
  args !! App.k_keyword = None \/ args !! App.k_keyword = Some ([] : str) ->
  App.status_code (App.search_keyword a args) = 200
  /\ App.body (App.search_keyword a args) !! App.k_status
     = Some (App.JStr (utf8 "error"))
  /\ (exists m : str,
        App.body (App.search_keyword a args) !! App.k_message
        = Some (App.JStr m))
  /\ App.body (App.search_keyword a args) !! App.k_data = None
  /\ App.body (App.search_keyword a args) !! App.k_total = None
  /\ App.body (App.search_keyword a args) !! App.k_keyword = None
  /\ dom (App.body (App.search_keyword a args))
     = {[ App.k_status; App.k_message ]}.
Proof.
  intros Hkw.
  assert (Hget : App.args_get args App.k_keyword [] = []).
  { unfold App.args_get. destruct Hkw as [H | H]; now rewrite H. }
  unfold App.search_keyword. rewrite Hget. cbn [truthy negb].
  unfold App.jsonify. cbn [App.status_code App.body].
  split; [reflexivity|].
  split; [now map_lookup|].
  split; [eexists; now map_lookup|].
  split; [now map_lookup|].
  split; [now map_lookup|].
  split; [now map_lookup|].
  rewrite !dom_insert_L, dom_empty_L. set_solver.
Qed.

Lemma empty_keyword_error_witness :
  App.status_code (App.search_keyword App.cats_and_dogs App.only_limit) = 200
  /\ App.body (App.search_keyword App.cats_and_dogs App.only_limit) !! App.k_status
     = Some (App.JStr (utf8 "error"))
  /\ (exists m : str,
        App.body (App.search_keyword App.cats_and_dogs App.only_limit) !! App.k_message
        = Some (App.JStr m))
  /\ App.body (App.search_keyword App.cats_and_dogs App.only_limit) !! App.k_data = None
  /\ App.body (App.search_keyword App.cats_and_dogs App.only_limit) !! App.k_total = None
  /\ App.body (App.search_keyword App.cats_and_dogs App.only_limit) !! App.k_keyword = None
  /\ dom (App.body (App.search_keyword App.cats_and_dogs App.only_limit))
     = {[ App.k_status; App.k_message ]}.
Proof.
  apply (empty_keyword_error App.cats_and_dogs App.only_limit).
  left. vm_compute. reflexivity.
Defined.

(** *** Searching *)

Section Search.
Import App.

Lemma is_prefix_spec (p s : str) :
  is_prefix p s = true <-> exists post, s = p ++ post.
Proof.
  revert s. induction p as [|a p IH]; intros s; simpl.
  - split; [eauto|reflexivity].
  - destruct s as [|b s].
    + split; [discriminate|]. intros [post H]. discriminate H.
    + rewrite andb_true_iff, N.eqb_eq, IH. split.
      * intros [-> [post ->]]. eauto.
      * intros [post H]. injection H as -> ->. eauto.
Qed.

(** [sub in s] holds exactly when [sub] occurs in [s] as a block. *)
Lemma str_in_spec (sub s : str) :
  str_in sub s = true <-> exists pre post, s = pre ++ sub ++ post.
Proof.
  induction s as [|c s IH]; cbn [str_in]; rewrite orb_true_iff, is_prefix_spec.
  - split.
    + intros [[post H]|H]; [|discriminate]. exists [], post. exact H.
    + intros (pre & post & H). left. destruct pre as [|x pre].
      * eauto.
      * discriminate H.
  - rewrite IH. split.
    + intros [[post H]|(pre & post & H)].
      * exists [], post. exact H.
      * exists (c :: pre), post. now rewrite H.
    + intros (pre & post & H). destruct pre as [|x pre].
      * left. eauto.
      * right. injection H as -> ->. eauto.
Qed.

(** The loop appends the next hits to [results] until [results] holds
    [limit] of them, and at least one if there is one. *)
Lemma search_loop_take (keyword : str) (limit : Z) (rows : list (Z * str))
  (results : list hit) :
  search_loop keyword limit rows results
  = results
    ++ take (Z.to_nat (Z.max 1 (limit - len results)))
            (hit_of <$> List.filter (matches keyword) rows).
Proof.
  revert results. induction rows as [|[i line] rows IH]; intros results.
  - cbn. now rewrite take_nil, app_nil_r.
  - cbn [search_loop List.filter]. unfold matches at 1. cbn [snd].
    destruct (re_search_escaped keyword (line_content line)) eqn:Hm.
    + rewrite len_app. change (len [_]) with 1.
      destruct (Z.geb_spec (len results + 1) limit) as [Hge|Hlt].
      * replace (Z.to_nat (Z.max 1 (limit - len results))) with 1%nat by lia.
        cbn. now rewrite take_0.
      * rewrite IH, len_app. change (len [_]) with 1.
        replace (Z.to_nat (Z.max 1 (limit - len results)))
          with (S (Z.to_nat (Z.max 1 (limit - (len results + 1))))) by lia.
        cbn. now rewrite <- app_assoc.
    + apply IH.
Qed.

Lemma search_results_take (a : artifacts) (keyword : str) (limit : Z) :
  search_results a keyword limit
  = take (Z.to_nat (Z.max 1 limit)) (all_hits keyword (bilibili_danmu a)).
Proof.
  unfold search_results. rewrite search_loop_take. cbn [app].
  change (len []) with 0. now rewrite Z.sub_0_r.
Qed.

End Search.

(** C2 (the code departs from the claim when the limit is 0). With the
    overlay file of the specification's example, keyword "love" and
    limit 0, the loop appends the first match before it compares the
    number of results with the limit: the response reports total 1 and
    returns the hit of line 1, while two lines match and
    min(0, 2) = 0. *)
Theorem search_limit_zero_returns_one :
  App.args_get_int App.love_limit_0 App.k_limit 50 = 0
  /\ App.body (App.search_keyword App.cats_and_dogs App.love_limit_0)
       !! App.k_total = Some (App.JInt 1)
  /\ App.body (App.search_keyword App.cats_and_dogs App.love_limit_0)
       !! App.k_data
     = Some (App.JList
               [App.hit_json {| App.index := 1;
                                App.content := utf8 "I love cats" |}])
  /\ len (App.all_hits (utf8 "love")
            (App.bilibili_danmu App.cats_and_dogs)) = 2.
Proof. vm_compute. repeat split; reflexivity. Qed.

(** *** The word-frequency report *)

Section Report.
Import Qgqx.

Lemma int_of_str_raises (s : str) (e : exn) :
  int_of_str s = inl e -> e = ValueError.
Proof.
  unfold int_of_str, ret, raise. intros H.
  repeat case_match; congruence.
Qed.

(** With at least two fields the dictionary is built unless the second
    field is rejected by [int]; no index is out of range. *)
Lemma make_entry_fields (w f_text : str) (rest : list str) :
  make_entry (w :: f_text :: rest)
  = match int_of_str f_text with
    | inr f => inr {| word := w; freq := f;
                      pos := match rest with
                             | p :: _ => p
                             | [] => unknown_pos
                             end |}
    | inl e => inl e
    end.
Proof.
  unfold make_entry.
  assert (H0 : Py.index (w :: f_text :: rest) 0 = inr w) by reflexivity.
  assert (H1 : Py.index (w :: f_text :: rest) 1 = inr f_text) by reflexivity.
  rewrite H0, H1. cbn [bind].
  destruct (int_of_str f_text) as [e|f]; [reflexivity|].
  cbn [bind]. destruct rest as [|p rest]; [reflexivity|].
  replace (len (w :: f_text :: p :: rest) >? 2) with true; [reflexivity|].
  symmetry. apply Z.gtb_lt. unfold len. simpl length. lia.
Qed.

Lemma len_ge_2 {A} (l : list A) :
  (len l >=? 2) = match l with _ :: _ :: _ => true | _ => false end.
Proof.
  destruct l as [|x [|y l]]; try reflexivity.
  apply Z.geb_le. unfold len. simpl length. lia.
Qed.

(** After the header lines, every turn of the loop adds what
    [report_row] gives for its line. *)
Lemma export_loop_rows (lines : list str) (k : Z) (acc : list word_freq) :
  2 <= k ->
  export_loop (enumerate k lines) acc = inr (acc ++ omap report_row lines).
Proof.
  revert k acc. induction lines as [|line lines IH]; intros k acc Hk.
  - cbn. now rewrite app_nil_r.
  - cbn [enumerate export_loop omap list_omap].
    destruct (Z.ltb_spec k 2) as [|_]; [lia|].
    unfold report_row at 1.
    destruct (str_in word_label line && str_in freq_label line).
    { apply IH. lia. }
    destruct (truthy (strip line)); cbn [negb].
    2:{ apply IH. lia. }
    rewrite len_ge_2.
    destruct (split chr_tab (strip line)) as [|w [|f_text rest]].
    { apply IH. lia. }
    { apply IH. lia. }
    rewrite make_entry_fields.
    destruct (int_of_str f_text) as [e|f] eqn:Hint.
    + apply int_of_str_raises in Hint as ->. apply IH. lia.
    + rewrite IH by lia. now rewrite <- app_assoc.
Qed.

Lemma export_word_freq_data_rows (lines : list str) :
  export_word_freq_data lines = inr (omap report_row (drop 2 lines)).
Proof.
  unfold export_word_freq_data.
  destruct lines as [|h1 [|h2 lines]]; try reflexivity.
  cbn [enumerate export_loop]. cbn [Z.ltb Z.compare Z.add Pos.compare
    Pos.compare_cont]. now rewrite export_loop_rows.
Qed.

End Report.

(** C5 (as amended: the fields are those of the trimmed line). Report
    parsing never raises and returns, in order, one entry for each kept
    line after the first two: the first two lines are dropped whatever
    they hold; a later line is dropped when it holds both column names,
    when it is blank, when its trimmed text has fewer than two
    tab-separated fields, or when [int] rejects the second of them;
    every other line gives word = first field, freq = the integer of the
    second field, pos = the third field if there is one and "未知"
    otherwise, the fields being those of the trimmed line. The row
    "研究<tab>120<tab>名词" gives {word "研究", freq 120, pos "名词"}. *)
Theorem word_report_parsing (lines : list str) :
  Qgqx.export_word_freq_data lines
  = inr (omap Qgqx.report_row (drop 2 lines))
  /\ Qgqx.report_row Qgqx.sample_row
     = Some {| Qgqx.word := utf8 "研究"; Qgqx.freq := 120;
               Qgqx.pos := utf8 "名词" |}
  /\ Qgqx.export_word_freq_data Qgqx.sample_report
     = inr [ {| Qgqx.word := utf8 "研究"; Qgqx.freq := 120;
                Qgqx.pos := utf8 "名词" |};
             {| Qgqx.word := utf8 "数据"; Qgqx.freq := 7;
                Qgqx.pos := utf8 "未知" |} ].
Proof.
  split; [apply export_word_freq_data_rows|].
  split; vm_compute; reflexivity.
Qed.

(** C5 as stated fails on a row that starts with a tab: split as it
    stands, the line "<tab>lead<tab>3" has the fields "", "lead" and
    "3", and its second field is no integer, so the row would be
    skipped; the code trims the line before it splits it and returns
    {word "lead", freq 3, pos "未知"}. *)
Lemma word_report_counterexample :
  Qgqx.export_word_freq_data Qgqx.leading_tab_report
  = inr [ {| Qgqx.word := utf8 "lead"; Qgqx.freq := 3;
             Qgqx.pos := utf8 "未知" |} ]
  /\ omap Qgqx.claimed_row (drop 2 Qgqx.leading_tab_report) = []
  /\ split chr_tab ([chr_tab] ++ Qgqx.tabbed [utf8 "lead"; utf8 "3"])
     = [ []; utf8 "lead"; utf8 "3" ]
  /\ int_of_str (utf8 "lead") = inl ValueError.
Proof. vm_compute. repeat split; reflexivity. Qed.

(** *** Sentiment classes *)

Section Classify.
Import Qgqx.

Lemma digits2_pos_bounds (m : positive) :
  2 ^ (Zpos (digits2_pos m) - 1) <= Zpos m < 2 ^ Zpos (digits2_pos m).
Proof.
  induction m as [m IH|m IH|]; cbn [digits2_pos].
  - rewrite Pos2Z.inj_succ.
    replace (Z.succ (Zpos (digits2_pos m)) - 1)
      with (Z.succ (Zpos (digits2_pos m) - 1)) by lia.
    rewrite !Z.pow_succ_r by lia. lia.
  - rewrite Pos2Z.inj_succ.
    replace (Z.succ (Zpos (digits2_pos m)) - 1)
      with (Z.succ (Zpos (digits2_pos m) - 1)) by lia.
    rewrite !Z.pow_succ_r by lia. lia.
  - cbn. lia.
Qed.

(** A valid binary64 mantissa has at most 53 bits, and exactly 53 above
    the least exponent. *)
Lemma bounded_mantissa (m : positive) (e : Z) :
  bounded prec emax m e = true ->
  -1074 <= e <= 971
  /\ Zpos m < 2 ^ 53
  /\ (-1074 < e -> 2 ^ 52 <= Zpos m).
Proof.
  unfold bounded, canonical_mantissa, fexp, emin, prec, emax.
  rewrite andb_true_iff, Z.eqb_eq, Z.leb_le. intros [Hc He].
  pose proof (digits2_pos_bounds m) as [Hlo Hhi].
  assert (Hd : Zpos (digits2_pos m) <= 53) by lia.
  split; [lia|]. split.
  - eapply Z.lt_le_trans; [exact Hhi|].
    apply Z.pow_le_mono_r; lia.
  - intros Hn. assert (Zpos (digits2_pos m) = 53) as Heq by lia.
    rewrite Heq in Hlo. exact Hlo.
Qed.

Lemma SFltb_positive (m1 m2 : positive) (e1 e2 : Z) :
  SFltb (S754_finite false m1 e1) (S754_finite false m2 e2) = true
  <-> e1 < e2 \/ (e1 = e2 /\ Zpos m1 < Zpos m2).
Proof.
  unfold SFltb, SFcompare.
  change (Pos.compare_cont Eq m1 m2) with (Pos.compare m1 m2).
  destruct (Z.compare_spec e1 e2) as [He|He|He].
  - destruct (Pos.compare_spec m1 m2) as [Hm|Hm|Hm].
    + split; [discriminate|]. intros [H|[_ H]]; lia.
    + split; [|reflexivity]. intros _. right. split; [assumption|]. lia.
    + split; [discriminate|]. intros [H|[_ H]]; lia.
  - split; [intros _; now left|reflexivity].
  - split; [discriminate|lia].
Qed.

Lemma pow2_neg_pos (p : positive) : Zpos (2 ^ p) = 2 ^ Zpos p.
Proof. apply Pos2Z.inj_pow. Qed.

Lemma labels_distinct :
  positive_label <> negative_label
  /\ positive_label <> neutral_label
  /\ negative_label <> neutral_label.
Proof. repeat split; intros H; vm_compute in H; discriminate H. Qed.

(** The first test, [score > 0.6], against the number 6/10. *)
Lemma above_0_6 (score : float) (s : Q) :
  valid_binary prec emax score = true ->
  float_value score = Some s ->
  float_gt score lit_0_6 = true <-> (6 # 10 < s)%Q.
Proof.
  intros Hv Hs. destruct score as [sg|sg| |sg m e]; try discriminate Hs.
  - injection Hs as <-. split; [discriminate|]. intros H. now apply Qlt_alt in H.
  - cbn [valid_binary] in Hv. apply bounded_mantissa in Hv as (He & Hhi & Hlo).
    cbn [float_value] in Hs. injection Hs as <-.
    destruct sg.
    + (* a negative score *)
      split; [discriminate|]. intros H. exfalso.
      destruct e as [|p|p]; unfold Qlt in H; cbn [Qnum Qden inject_Z] in H.
      * lia.
      * pose proof (Z.pow_pos_nonneg 2 (Zpos p)). lia.
      * lia.
    + unfold float_gt, lit_0_6. rewrite SFltb_positive.
      destruct e as [|p|p]; unfold Qlt; cbn [Qnum Qden inject_Z].
      * split; [lia|]. intros _. left. lia.
      * split; [|intros _; left; lia].
        intros _. pose proof (Z.pow_pos_nonneg 2 (Zpos p)). nia.
      * rewrite pow2_neg_pos.
        destruct (Z.lt_trichotomy (Zpos p) 53) as [Hp|[Hp|Hp]].
        -- assert (2 ^ Zpos p <= 2 ^ 52) by (apply Z.pow_le_mono_r; lia).
           assert (2 ^ 52 <= Zpos m) by (apply Hlo; lia).
           split; [lia|]. intros _. left. lia.
        -- rewrite Hp. change (2 ^ 53) with 9007199254740992 in *.
           split.
           ++ intros [Hlt|[_ Hm]]; lia.
           ++ intros Hm. right. split; [lia|]. lia.
        -- assert (2 ^ 54 <= 2 ^ Zpos p) by (apply Z.pow_le_mono_r; lia).
           change (2 ^ 53) with 9007199254740992 in *.
           change (2 ^ 54) with 18014398509481984 in *.
           split; [|lia]. intros [Hlt|[Heq _]]; lia.
Qed.

(** The second test, [score < 0.4], against the number 4/10. *)
Lemma below_0_4 (score : float) (s : Q) :
  valid_binary prec emax score = true ->
  float_value score = Some s ->
  float_lt score lit_0_4 = true <-> (s < 4 # 10)%Q.
Proof.
  intros Hv Hs. destruct score as [sg|sg| |sg m e]; try discriminate Hs.
  - injection Hs as <-. split; [reflexivity|]. now destruct sg.
  - cbn [valid_binary] in Hv. apply bounded_mantissa in Hv as (He & Hhi & Hlo).
    cbn [float_value] in Hs. injection Hs as <-.
    destruct sg.
    + (* a negative score *)
      split; [|reflexivity]. intros _.
      destruct e as [|p|p]; unfold Qlt; cbn [Qnum Qden inject_Z].
      * lia.
      * pose proof (Z.pow_pos_nonneg 2 (Zpos p)). nia.
      * lia.
    + unfold float_lt, lit_0_4. rewrite SFltb_positive.
      destruct e as [|p|p]; unfold Qlt; cbn [Qnum Qden inject_Z].
      * split; [lia|]. intros H. exfalso.
        assert (2 ^ 52 <= Zpos m) by (apply Hlo; lia).
        change (2 ^ 52) with 4503599627370496 in *. lia.
      * split; [lia|]. intros H. exfalso.
        pose proof (Z.pow_pos_nonneg 2 (Zpos p)). nia.
      * rewrite pow2_neg_pos.
        destruct (Z.lt_trichotomy (Zpos p) 54) as [Hp|[Hp|Hp]].
        -- assert (2 ^ Zpos p <= 2 ^ 53) by (apply Z.pow_le_mono_r; lia).
           assert (2 ^ 52 <= Zpos m) by (apply Hlo; lia).
           change (2 ^ 52) with 4503599627370496 in *.
           change (2 ^ 53) with 9007199254740992 in *.
           split; [lia|]. intros H'. exfalso. lia.
        -- rewrite Hp. change (2 ^ 54) with 18014398509481984 in *.
           split.
           ++ intros [Hlt|[_ Hm]]; lia.
           ++ intros Hm. right. split; [lia|]. lia.
        -- assert (2 ^ 55 <= 2 ^ Zpos p) by (apply Z.pow_le_mono_r; lia).
           change (2 ^ 53) with 9007199254740992 in *.
           change (2 ^ 55) with 36028797018963968 in *.
           split; [|intros _; left; lia]. intros _. lia.
Qed.

Lemma classify_cases (score : float) :
  classify_sentiment score
  = if float_gt score lit_0_6 then positive_label
    else if float_lt score lit_0_4 then negative_label
    else neutral_label.
Proof. reflexivity. Qed.

End Classify.

(** C4. For every finite binary64 score, so for every score in [0,1],
    the class is positive exactly when the score is above 6/10,
    negative exactly when it is below 4/10, and neutral otherwise. The
    scores written 0.6 and 0.4 are neutral, 0.61 is positive and 0.39
    is negative. *)
Theorem classify_sentiment_thresholds (score : Qgqx.float) (s : Q) :
  valid_binary Qgqx.prec Qgqx.emax score = true ->
  Qgqx.float_value score = Some s ->
  (Qgqx.classify_sentiment score = Qgqx.positive_label <-> (6 # 10 < s)%Q)
  /\ (Qgqx.classify_sentiment score = Qgqx.negative_label <-> (s < 4 # 10)%Q)
  /\ (Qgqx.classify_sentiment score = Qgqx.neutral_label
      <-> ~ (6 # 10 < s)%Q /\ ~ (s < 4 # 10)%Q)
  /\ Qgqx.classify_sentiment (Qgqx.float_lit 6 10) = Qgqx.neutral_label
  /\ Qgqx.classify_sentiment (Qgqx.float_lit 4 10) = Qgqx.neutral_label
  /\ Qgqx.classify_sentiment (Qgqx.float_lit 61 100) = Qgqx.positive_label
  /\ Qgqx.classify_sentiment (Qgqx.float_lit 39 100) = Qgqx.negative_label.
Proof.
  intros Hv Hs.
  pose proof (above_0_6 score s Hv Hs) as Hgt.
  pose proof (below_0_4 score s Hv Hs) as Hlt.
  destruct labels_distinct as (Hpn & Hpz & Hnz).
  rewrite classify_cases.
  assert (Hexcl : (6 # 10 < s)%Q -> (s < 4 # 10)%Q -> False).
  { intros H1 H2. pose proof (Qlt_trans _ _ _ H1 H2) as H. now apply Qlt_alt in H. }
  split; [|split; [|split]].
  - destruct (Qgqx.float_gt score Qgqx.lit_0_6).
    + split; [intros _; now apply Hgt|reflexivity].
    + split.
      * destruct (Qgqx.float_lt score Qgqx.lit_0_4); congruence.
      * intros H. apply Hgt in H. discriminate H.
  - destruct (Qgqx.float_gt score Qgqx.lit_0_6).
    + split; [congruence|]. intros H. exfalso. apply Hexcl; [now apply Hgt|exact H].
    + destruct (Qgqx.float_lt score Qgqx.lit_0_4).
      * split; [intros _; now apply Hlt|reflexivity].
      * split; [congruence|]. intros H. apply Hlt in H. discriminate H.
  - destruct (Qgqx.float_gt score Qgqx.lit_0_6).
    + split; [congruence|]. intros [H _]. exfalso. apply H. now apply Hgt.
    + destruct (Qgqx.float_lt score Qgqx.lit_0_4).
      * split; [congruence|]. intros [_ H]. exfalso. apply H. now apply Hlt.
      * split; [|reflexivity]. intros _. split; intros H.
        -- apply Hgt in H. discriminate H.
        -- apply Hlt in H. discriminate H.
  - repeat split; vm_compute; reflexivity.
Qed.

Lemma classify_sentiment_thresholds_witness :
  (Qgqx.classify_sentiment Qgqx.lit_0_5 = Qgqx.positive_label
   <-> (6 # 10 < 4503599627370496 # 2 ^ 53)%Q)
  /\ (Qgqx.classify_sentiment Qgqx.lit_0_5 = Qgqx.negative_label
      <-> (4503599627370496 # 2 ^ 53 < 4 # 10)%Q)
  /\ (Qgqx.classify_sentiment Qgqx.lit_0_5 = Qgqx.neutral_label
      <-> ~ (6 # 10 < 4503599627370496 # 2 ^ 53)%Q
          /\ ~ (4503599627370496 # 2 ^ 53 < 4 # 10)%Q)
  /\ Qgqx.classify_sentiment (Qgqx.float_lit 6 10) = Qgqx.neutral_label
  /\ Qgqx.classify_sentiment (Qgqx.float_lit 4 10) = Qgqx.neutral_label
  /\ Qgqx.classify_sentiment (Qgqx.float_lit 61 100) = Qgqx.positive_label
  /\ Qgqx.classify_sentiment (Qgqx.float_lit 39 100) = Qgqx.negative_label.
Proof.
  apply (classify_sentiment_thresholds Qgqx.lit_0_5
           (4503599627370496 # 2 ^ 53)%Q); reflexivity.
Defined.

(** *** The collector *)

Section Collector.
Import Pa.

Lemma crawl_danmu_failed (f : danmu_fetch) :
  f = RequestFails \/ f = ParseFails ->
  exists e, crawl_danmu_try f [] = (Some e, []).
Proof. intros [-> | ->]; eexists; reflexivity. Qed.

Lemma main_after_cid (w : world) (fuel : nat) :
  truthy (get_video_cid (lookup w)) = true ->
  main w fuel
  = [GetCid; CrawlDanmu]
    ++ (if truthy (crawl_danmu (danmu w))
        then [SaveDanmu (crawl_danmu (danmu w))] else [])
    ++ [CrawlComments]
    ++ match crawl_comments fuel (comment_pages w) with
       | None => []
       | Some comment_list =>
           (if truthy comment_list then [SaveComments comment_list] else [])
           ++ [Finished]
       end.
Proof.
  intros Hcid. unfold main. rewrite Hcid. cbn [negb].
  destruct (crawl_comments fuel (comment_pages w)); [reflexivity|].
  now rewrite app_nil_r.
Qed.

Lemma add_replies_raises (replies : list reply_item) (acc : list comment) :
  existsb reply_raises replies
  = match (add_replies replies acc).1 with
    | Some _ => true
    | None => false
    end.
Proof.
  revert acc. induction replies as [|[r|] replies IH]; intros acc;
    cbn [add_replies existsb reply_raises orb fst c_message];
    [reflexivity| |reflexivity].
  destruct (local_time r) as [e|published]; [reflexivity|].
  cbn [orb]. destruct (truthy (strip (message r))); apply IH.
Qed.

Section Pagination.
Variable responses : nat -> page_response.

(** More turns do not change how the loop is left. *)
Lemma crawl_loop_fuel_mono (fuel fuel' : nat) (a : nat) (p : Z)
  (acc : list comment) (o : outcome) :
  crawl_loop fuel responses a p acc = Some o ->
  (fuel <= fuel')%nat ->
  crawl_loop fuel' responses a p acc = Some o.
Proof.
  revert fuel' a p acc. induction fuel as [|fuel IH];
    intros fuel' a p acc Hrun Hle; [discriminate Hrun|].
  destruct fuel' as [|fuel']; [lia|].
  cbn [crawl_loop] in Hrun |- *.
  destruct (p <? max_page); [|exact Hrun].
  destruct (responses a) as [|code replies].
  - apply IH; [exact Hrun|lia].
  - destruct (negb (code =? 0)); [exact Hrun|].
    destruct (negb (truthy replies)); [exact Hrun|].
    destruct (add_replies replies acc) as [[e|] acc'];
      (apply IH; [exact Hrun|lia]).
Qed.

Lemma pages_done_nonneg (n : nat) : 0 <= pages_done responses n.
Proof.
  induction n as [|n IH]; cbn [pages_done]; [lia|].
  destruct (page_done (responses n)); lia.
Qed.

Lemma pages_done_step (n : nat) :
  pages_done responses n <= pages_done responses (S n)
  <= pages_done responses n + 1.
Proof. cbn [pages_done]. destruct (page_done (responses n)); lia. Qed.

(** A response that neither ends the loop nor raises completes a
    page. *)
Lemma quiet_page_done (r : page_response) :
  terminal r = None -> attempt_raises r = false -> page_done r = true.
Proof.
  destruct r as [|code replies]; cbn [terminal attempt_raises page_done];
    [discriminate|].
  destruct (code =? 0); cbn [negb andb]; [|discriminate].
  destruct (truthy replies); cbn [negb andb]; [|discriminate].
  now intros _ ->.
Qed.

Lemma crawl_loop_S (fuel a : nat) (p : Z) (acc : list comment) :
  crawl_loop (S fuel) responses a p acc
  = if p <? max_page then
      match responses a with
      | FetchRaises => crawl_loop fuel responses (S a) p acc
      | Page code replies =>
          if negb (code =? 0) then
            Some {| reason := StopStatus; requests := S a;
                    pages := p; comments := acc |}
          else if negb (truthy replies) then
            Some {| reason := StopEmpty; requests := S a;
                    pages := p; comments := acc |}
          else
            match add_replies replies acc with
            | (None, acc') => crawl_loop fuel responses (S a) (p + 1) acc'
            | (Some _, acc') => crawl_loop fuel responses (S a) p acc'
            end
      end
    else
      Some {| reason := StopCap; requests := a;
              pages := p; comments := acc |}.
Proof. reflexivity. Qed.

(** When the loop can be left at request [a + d], it is left within
    [d + 1] turns. *)
Lemma crawl_loop_reaches (d a : nat) (p : Z) (acc : list comment) :
  p = pages_done responses a ->
  p <= max_page ->
  stop_event responses (a + d) ->
  exists o, crawl_loop (S d) responses a p acc = Some o.
Proof.
  revert a p acc. induction d as [|d IH]; intros a p acc Hp Hcap Hstop;
    rewrite crawl_loop_S;
    (destruct (Z.ltb_spec p max_page) as [Hlt|Hge]; [|eauto]).
  - rewrite Nat.add_0_r in Hstop. destruct Hstop as [Hterm|Hfull]; [|lia].
    destruct (responses a) as [|code replies]; cbn [terminal] in Hterm;
      [contradiction|].
    destruct (negb (code =? 0)); [eauto|].
    destruct (negb (truthy replies)); [eauto|contradiction].
  - replace (a + S d)%nat with (S a + d)%nat in Hstop by lia.
    pose proof (pages_done_step a) as Hstep.
    destruct (responses a) as [|code replies] eqn:Hresp.
    + apply IH; [|lia|exact Hstop].
      cbn [pages_done]. rewrite Hresp. cbn [page_done]. lia.
    + destruct (Z.eqb_spec code 0) as [Hcode|Hcode]; cbn [negb]; [|eauto].
      destruct (truthy replies) eqn:Hrep; cbn [negb]; [|eauto].
      pose proof (add_replies_raises replies acc) as Hraise.
      destruct (add_replies replies acc) as [[e|] acc']; cbn [fst] in Hraise;
        (apply IH; [|lia|exact Hstop]);
        cbn [pages_done]; rewrite Hresp; cbn [page_done];
        rewrite Hcode, Hrep, Hraise; cbn; lia.
Qed.

Lemma pages_done_reaches_cap (n : nat) :
  max_page <= pages_done responses n ->
  exists n', (n' <= n)%nat /\ pages_done responses n' = max_page.
Proof.
  induction n as [|n IH]; intros Hn.
  - cbn in Hn. unfold max_page in Hn. lia.
  - pose proof (pages_done_step n) as Hstep.
    destruct (Z.eq_dec (pages_done responses (S n)) max_page) as [Heq|Hne].
    + exists (S n). split; [lia|exact Heq].
    + destruct IH as (n' & Hn' & Heq); [lia|].
      exists n'. split; [lia|exact Heq].
Qed.

(** Once no request raises any more, the loop can be left at one of the
    next 100 requests. *)
Lemma quiet_reaches_stop (k0 : nat) :
  (forall m : nat, (k0 <= m)%nat -> attempt_raises (responses m) = false) ->
  exists n : nat, (n <= k0 + 100)%nat /\ stop_event responses n.
Proof.
  intros Hquiet.
  assert (Hgen : forall j : nat,
            (exists n : nat, (n <= k0 + j)%nat /\ stop_event responses n)
            \/ Z.of_nat j <= pages_done responses (k0 + j) < max_page).
  { induction j as [|j IH].
    - rewrite Nat.add_0_r.
      destruct (Z.lt_ge_cases (pages_done responses k0) max_page) as [Hlt|Hge].
      + right. pose proof (pages_done_nonneg k0). lia.
      + left. destruct (pages_done_reaches_cap k0 Hge) as (n' & Hn' & Heq).
        exists n'. split; [lia|]. now right.
    - destruct IH as [(n & Hn & Hs)|Hpd].
      { left. exists n. split; [lia|exact Hs]. }
      destruct (terminal (responses (k0 + j))) as [r|] eqn:Hterm.
      { left. exists (k0 + j)%nat. split; [lia|]. left. congruence. }
      pose proof (quiet_page_done _ Hterm (Hquiet (k0 + j)%nat ltac:(lia)))
        as Hdone.
      replace (k0 + S j)%nat with (S (k0 + j)) by lia.
      assert (Hnext : pages_done responses (S (k0 + j))
                      = pages_done responses (k0 + j) + 1).
      { cbn [pages_done]. now rewrite Hdone. }
      destruct (Z.eq_dec (pages_done responses (S (k0 + j))) max_page)
        as [Heq|Hne].
      + left. exists (S (k0 + j)). split; [lia|]. now right.
      + right. lia. }
  destruct (Hgen 100%nat) as [H|H]; [exact H|].
  unfold max_page in H. lia.
Qed.

(** However the loop is left, it is left at the first request that
    allows it. *)
Lemma crawl_loop_stops_first (fuel a : nat) (p : Z) (acc : list comment)
  (o : outcome) :
  crawl_loop fuel responses a p acc = Some o ->
  p = pages_done responses a ->
  p <= max_page ->
  (forall i : nat, (i < a)%nat ->
     terminal (responses i) = None /\ pages_done responses i < max_page) ->
  stops_first responses o /\ (a <= requests o <= a + fuel)%nat.
Proof.
  revert a p acc. induction fuel as [|fuel IH];
    intros a p acc Hrun Hp Hcap Hbefore; [discriminate Hrun|].
  cbn [crawl_loop] in Hrun.
  destruct (Z.ltb_spec p max_page) as [Hlt|Hge].
  2:{ injection Hrun as <-. cbn [requests]. split; [|lia].
      exists a. cbn. split; [exact Hp|]. split; [exact Hbefore|].
      left. split; [reflexivity|]. split; [lia|reflexivity]. }
  assert (Hnext : forall p' acc',
            crawl_loop fuel responses (S a) p' acc' = Some o ->
            terminal (responses a) = None ->
            p' = pages_done responses (S a) ->
            p' <= max_page ->
            stops_first responses o /\ (a <= requests o <= a + S fuel)%nat).
  { intros p' acc' Hrec Hterm Hp' Hcap'.
    destruct (IH _ _ _ Hrec Hp' Hcap') as [Hs Hr]; [|split; [exact Hs|lia]].
    intros i Hi. destruct (Nat.eq_dec i a) as [->|Hne].
    - split; [exact Hterm|lia].
    - apply Hbefore. lia. }
  destruct (responses a) as [|code replies] eqn:Hresp.
  - apply (Hnext _ _ Hrun); [reflexivity| |exact Hcap].
    cbn [pages_done]. rewrite Hresp. cbn. lia.
  - destruct (Z.eqb_spec code 0) as [Hcode|Hcode]; cbn [negb] in Hrun.
    2:{ injection Hrun as <-. cbn [requests]. split; [|lia].
        exists a. cbn. split; [exact Hp|]. split; [exact Hbefore|]. right.
        split; [lia|]. split; [|reflexivity]. rewrite Hresp. cbn.
        destruct (Z.eqb_spec code 0); [contradiction|reflexivity]. }
    destruct (truthy replies) eqn:Hrep; cbn [negb] in Hrun.
    2:{ injection Hrun as <-. cbn [requests]. split; [|lia].
        exists a. cbn. split; [exact Hp|]. split; [exact Hbefore|]. right.
        split; [lia|]. split; [|reflexivity].
        rewrite Hresp. cbn. now rewrite Hcode, Hrep. }
    pose proof (add_replies_raises replies acc) as Hraise.
    assert (Hterm : terminal (Page code replies) = None).
    { cbn. now rewrite Hcode, Hrep. }
    destruct (add_replies replies acc) as [[e|] acc']; cbn [fst] in Hraise;
      apply (Hnext _ _ Hrun Hterm).
    + cbn [pages_done]. rewrite Hresp. cbn [page_done].
      rewrite Hraise, andb_false_r. lia.
    + exact Hcap.
    + cbn [pages_done]. rewrite Hresp. cbn [page_done].
      rewrite Hcode, Hrep, Hraise. cbn. lia.
    + lia.
Qed.

End Pagination.

(** A loop whose every request raises is still running after any number
    of turns. *)
Lemma always_failing_runs_on (fuel a : nat) (p : Z) (acc : list comment) :
  p < max_page -> crawl_loop fuel always_failing a p acc = None.
Proof.
  intros Hp. revert a. induction fuel as [|fuel IH]; intros a; [reflexivity|].
  cbn [crawl_loop]. destruct (Z.ltb_spec p max_page); [|lia].
  cbn [always_failing]. apply IH.
Qed.

End Collector.

(** C6. When the request for the overlay comments or the parsing of the
    XML document fails, the list is empty when the exception is raised
    and [crawl_danmu] returns the empty list; [main] then makes no call
    that saves overlay comments and goes on to crawl the replies, and it
    finishes whenever the reply loop does. *)
Theorem danmu_failure_not_fatal (w : Pa.world) (fuel : nat) :
  truthy (Pa.get_video_cid (Pa.lookup w)) = true ->
  Pa.danmu w = Pa.RequestFails \/ Pa.danmu w = Pa.ParseFails ->
  (exists e, Pa.crawl_danmu_try (Pa.danmu w) [] = (Some e, []))
  /\ Pa.crawl_danmu (Pa.danmu w) = []
  /\ (forall data, Pa.SaveDanmu data ∉ Pa.main w fuel)
  /\ [Pa.GetCid; Pa.CrawlDanmu; Pa.CrawlComments] `prefix_of` Pa.main w fuel
  /\ (forall comment_list,
        Pa.crawl_comments fuel (Pa.comment_pages w) = Some comment_list ->
        last (Pa.main w fuel) = Some Pa.Finished).
Proof.
  intros Hcid Hfail.
  destruct (crawl_danmu_failed _ Hfail) as [e He].
  assert (Hempty : Pa.crawl_danmu (Pa.danmu w) = []).
  { unfold Pa.crawl_danmu. now rewrite He. }
  rewrite (main_after_cid w fuel Hcid), Hempty. cbn [truthy app].
  split; [eauto|]. split; [reflexivity|].
  split; [|split].
  - intros data Hin.
    repeat (apply elem_of_cons in Hin as [Hin|Hin]; [discriminate Hin|]).
    destruct (Pa.crawl_comments fuel (Pa.comment_pages w)) as [cl|].
    + apply elem_of_app in Hin as [Hin|Hin].
      * destruct (truthy cl); [|now apply elem_of_nil in Hin].
        apply list_elem_of_singleton in Hin. discriminate Hin.
      * apply list_elem_of_singleton in Hin. discriminate Hin.
    + now apply elem_of_nil in Hin.
  - eexists. reflexivity.
  - intros cl ->.
    match goal with
    | |- last (?a :: ?b :: ?c :: ?x ++ ?y) = _ =>
        change (last (([a; b; c] ++ x) ++ y) = Some Pa.Finished)
    end.
    apply last_snoc.
Qed.

Lemma danmu_failure_not_fatal_witness :
  (exists e, Pa.crawl_danmu_try (Pa.danmu Pa.failed_danmu_world) []
             = (Some e, []))
  /\ Pa.crawl_danmu (Pa.danmu Pa.failed_danmu_world) = []
  /\ (forall data, Pa.SaveDanmu data ∉ Pa.main Pa.failed_danmu_world 10)
  /\ [Pa.GetCid; Pa.CrawlDanmu; Pa.CrawlComments]
       `prefix_of` Pa.main Pa.failed_danmu_world 10
  /\ (forall comment_list,
        Pa.crawl_comments 10 (Pa.comment_pages Pa.failed_danmu_world)
        = Some comment_list ->
        last (Pa.main Pa.failed_danmu_world 10) = Some Pa.Finished).
Proof.
  apply (danmu_failure_not_fatal Pa.failed_danmu_world 10).
  - reflexivity.
  - right. reflexivity.
Defined.

(** C1 (as amended). Whenever some request is answered by a page with a
    non-zero code or without replies, or 100 pages get complete, the
    reply loop ends: if request number n (from 0) is such a point, the
    loop is left within n + 1 turns, after at most n + 1 requests, and
    it is left at the first such point: at the first request whose
    response reports a non-zero code or has no replies, or as soon as
    100 pages are complete, whichever comes first. Such a point is
    reached within 100 requests after the last request that ends in an
    exception (raised by the fetch or while a reply is processed), so
    the loop ends whenever only finitely many requests do. *)
Theorem crawl_comments_stops (responses : nat -> Pa.page_response) :
  (forall n : nat,
     Pa.stop_event responses n ->
     exists o : Pa.outcome,
       Pa.crawl_comments_run (S n) responses = Some o
       /\ (forall fuel : nat, (S n <= fuel)%nat ->
             Pa.crawl_comments_run fuel responses = Some o)
       /\ Pa.stops_first responses o
       /\ (Pa.requests o <= S n)%nat)
  /\ (forall k0 : nat,
        (forall m : nat, (k0 <= m)%nat ->
           Pa.attempt_raises (responses m) = false) ->
        exists n : nat, (n <= k0 + 100)%nat /\ Pa.stop_event responses n).
Proof.
  split; [|apply quiet_reaches_stop].
  intros n Hstop. unfold Pa.crawl_comments_run.
  destruct (crawl_loop_reaches responses n 0 0 []) as [o Ho].
  { reflexivity. }
  { unfold Pa.max_page. lia. }
  { exact Hstop. }
  exists o. split; [exact Ho|]. split.
  - intros fuel Hfuel. now apply (crawl_loop_fuel_mono responses (S n)).
  - destruct (crawl_loop_stops_first responses _ _ _ _ _ Ho) as [Hs Hr].
    + reflexivity.
    + unfold Pa.max_page. lia.
    + intros i Hi. lia.
    + split; [exact Hs|lia].
Qed.

Lemma crawl_comments_stops_witness :
  (exists o : Pa.outcome,
     Pa.crawl_comments_run (S 3) Pa.two_failures = Some o
     /\ (forall fuel : nat, (S 3 <= fuel)%nat ->
           Pa.crawl_comments_run fuel Pa.two_failures = Some o)
     /\ Pa.stops_first Pa.two_failures o
     /\ (Pa.requests o <= S 3)%nat)
  /\ (exists o : Pa.outcome,
        Pa.crawl_comments_run (S 0) Pa.empty_then_raise = Some o
        /\ (forall fuel : nat, (S 0 <= fuel)%nat ->
              Pa.crawl_comments_run fuel Pa.empty_then_raise = Some o)
        /\ Pa.stops_first Pa.empty_then_raise o
        /\ (Pa.requests o <= S 0)%nat).
Proof.
  split.
  - apply (proj1 (crawl_comments_stops Pa.two_failures) 3%nat).
    left. discriminate.
  - apply (proj1 (crawl_comments_stops Pa.empty_then_raise) 0%nat).
    left. discriminate.
Defined.

(** C1 as stated fails twice. When every request raises, the loop is
    still running after any number of turns. And a response with a
    non-zero code ends the loop although the page holds a reply and no
    page is complete. *)
Lemma crawl_comments_counterexample :
  (forall fuel : nat, Pa.crawl_comments_run fuel Pa.always_failing = None)
  /\ (exists o : Pa.outcome,
        Pa.crawl_comments_run 1 Pa.refused = Some o
        /\ Pa.reason o = Pa.StopStatus
        /\ Pa.pages o = 0
        /\ Pa.refused 0%nat = Pa.Page (-412) [Pa.WellFormed Pa.sample_reply]).
Proof.
  split.
  - intros fuel. apply always_failing_runs_on. reflexivity.
  - eexists. repeat split.
Qed.

(** *** Further properties *)

(** With a limit of at least 1 the search endpoint returns the first
    [limit] hits in file order and reports as total the number of hits
    returned, the smaller of [limit] and the number of matching lines;
    a hit is a line whose content holds the keyword as a block of
    consecutive characters. *)
Theorem search_with_positive_limit (a : App.artifacts)
  (args : gmap str str) (keyword : str) :
  args !! App.k_keyword = Some keyword ->
  keyword <> [] ->
  1 <= App.args_get_int args App.k_limit 50 ->
  App.status_code (App.search_keyword a args) = 200
  /\ App.body (App.search_keyword a args) !! App.k_status
     = Some (App.JStr (utf8 "success"))
  /\ App.body (App.search_keyword a args) !! App.k_keyword
     = Some (App.JStr keyword)
  /\ App.body (App.search_keyword a args) !! App.k_data
     = Some (App.JList
               (App.hit_json
                  <$> take (Z.to_nat (App.args_get_int args App.k_limit 50))
                        (App.all_hits keyword (App.bilibili_danmu a))))
  /\ App.body (App.search_keyword a args) !! App.k_total
     = Some (App.JInt
               (Z.min (App.args_get_int args App.k_limit 50)
                  (len (App.all_hits keyword (App.bilibili_danmu a)))))
  /\ (forall (i : Z) (line : str),
        App.matches keyword (i, line) = true
        <-> exists pre post, App.line_content line = pre ++ keyword ++ post).
Proof.
  intros Hkw Hne Hlimit.
  assert (Hget : App.args_get args App.k_keyword [] = keyword).
  { unfold App.args_get. now rewrite Hkw. }
  unfold App.search_keyword. rewrite Hget.
  destruct keyword as [|c keyword]; [contradiction|]. cbn [truthy negb].
  unfold App.jsonify. cbn [App.status_code App.body].
  rewrite search_results_take.
  replace (Z.max 1 (App.args_get_int args App.k_limit 50))
    with (App.args_get_int args App.k_limit 50) by lia.
  split; [reflexivity|].
  split; [now map_lookup|].
  split; [now map_lookup|].
  split; [now map_lookup|].
  split.
  - map_lookup. do 2 f_equal. unfold len. rewrite length_take. lia.
  - intros i line. unfold App.matches, re_search_escaped. cbn [snd].
    apply str_in_spec.
Qed.

Lemma search_with_positive_limit_witness :
  App.status_code (App.search_keyword App.cats_and_dogs App.love_limit_1)
  = 200
  /\ App.body (App.search_keyword App.cats_and_dogs App.love_limit_1)
       !! App.k_status = Some (App.JStr (utf8 "success"))
  /\ App.body (App.search_keyword App.cats_and_dogs App.love_limit_1)
       !! App.k_keyword = Some (App.JStr (utf8 "love"))
  /\ App.body (App.search_keyword App.cats_and_dogs App.love_limit_1)
       !! App.k_data
     = Some (App.JList
               (App.hit_json
                  <$> take (Z.to_nat
                              (App.args_get_int App.love_limit_1
                                 App.k_limit 50))
                        (App.all_hits (utf8 "love")
                           (App.bilibili_danmu App.cats_and_dogs))))
  /\ App.body (App.search_keyword App.cats_and_dogs App.love_limit_1)
       !! App.k_total
     = Some (App.JInt
               (Z.min (App.args_get_int App.love_limit_1 App.k_limit 50)
                  (len (App.all_hits (utf8 "love")
                          (App.bilibili_danmu App.cats_and_dogs)))))
  /\ (forall (i : Z) (line : str),
        App.matches (utf8 "love") (i, line) = true
        <-> exists pre post,
            App.line_content line = pre ++ utf8 "love" ++ post).
Proof.
  apply (search_with_positive_limit App.cats_and_dogs App.love_limit_1
           (utf8 "love")).
  - vm_compute. reflexivity.
  - vm_compute. discriminate.
  - vm_compute. discriminate.
Defined.

(** The search example of the specification: keyword "love" and limit 1
    give total 1 and the hit of line 1, although line 3 matches too. *)
Lemma search_example :
  App.body (App.search_keyword App.cats_and_dogs App.love_limit_1)
    !! App.k_total = Some (App.JInt 1)
  /\ App.body (App.search_keyword App.cats_and_dogs App.love_limit_1)
       !! App.k_data
     = Some (App.JList
               [App.hit_json {| App.index := 1;
                                App.content := utf8 "I love cats" |}]).
Proof. vm_compute. split; reflexivity. Qed.

(** An overlay-comment element without text raises inside the loop:
    [crawl_danmu] returns what was collected before the first such
    element, the trimmed non-empty texts in document order, and loses
    every element after it. *)
Theorem crawl_danmu_partial (before : list str) (rest : list (option str)) :
  Pa.crawl_danmu_try (Pa.Parsed ((Some <$> before) ++ None :: rest)) []
  = (Some AttributeError, List.filter truthy (strip <$> before))
  /\ Pa.crawl_danmu (Pa.Parsed ((Some <$> before) ++ None :: rest))
     = List.filter truthy (strip <$> before).
Proof.
  assert (Hgen : forall acc,
    Pa.collect_danmu ((Some <$> before) ++ None :: rest) acc
    = (Some AttributeError, acc ++ List.filter truthy (strip <$> before))).
  { induction before as [|t before IH]; intros acc;
      cbn [fmap list_fmap app Pa.collect_danmu List.filter].
    - now rewrite app_nil_r.
    - destruct (truthy (strip t)); rewrite IH; [|reflexivity].
      now rewrite <- app_assoc. }
  unfold Pa.crawl_danmu. cbn [Pa.crawl_danmu_try].
  rewrite Hgen. split; reflexivity.
Qed.

(** The floats the threshold literals denote, as [float.hex] prints
    them: 0x1.3333333333333p-1 and 0x1.999999999999ap-2. *)
Lemma threshold_literals :
  Qgqx.lit_0_6 = S754_finite false 0x13333333333333 (-53)
  /\ Qgqx.lit_0_4 = S754_finite false 0x1999999999999a (-54).
Proof. split; reflexivity. Qed.

(** *** From the collector's file to the analyzer and the server *)

Section SaveRead.

Lemma lstrip_by_all (sp : char -> bool) (ws s : str) :
  Forall (fun c => sp c = true) ws ->
  lstrip_by sp (ws ++ s) = lstrip_by sp s.
Proof.
  induction 1 as [|c ws Hc _ IH]; [reflexivity|].
  cbn [app lstrip_by]. now rewrite Hc.
Qed.

Lemma lstrip_by_app (sp : char -> bool) (s r : str) :
  lstrip_by sp (s ++ r)
  = match lstrip_by sp s with
    | [] => lstrip_by sp r
    | t => t ++ r
    end.
Proof.
  induction s as [|c s IH]; cbn [app lstrip_by].
  - now destruct (lstrip_by sp r).
  - destruct (sp c); [exact IH|reflexivity].
Qed.

(** Whitespace around a text does not change what [strip] returns. *)
Lemma strip_by_padded (sp : char -> bool) (l s r : str) :
  Forall (fun c => sp c = true) l ->
  Forall (fun c => sp c = true) r ->
  strip_by sp (l ++ s ++ r) = strip_by sp s.
Proof.
  intros Hl Hr. unfold strip_by. rewrite lstrip_by_all by assumption.
  rewrite lstrip_by_app.
  assert (Hrev : Forall (fun c => sp c = true) (rev r)).
  { apply Forall_forall. intros c Hc. rewrite Forall_forall in Hr.
    apply Hr. apply list_elem_of_In. apply list_elem_of_In in Hc.
    now apply in_rev. }
  destruct (lstrip_by sp s) as [|c t] eqn:Ht.
  - pose proof (lstrip_by_all sp r [] Hr) as Hnil.
    rewrite app_nil_r in Hnil. now rewrite Hnil.
  - rewrite rev_app_distr. now rewrite lstrip_by_all.
Qed.

(** A text that neither starts nor ends with whitespace is what [strip]
    returns for it. *)
Lemma strip_by_fixed (sp : char -> bool) (s : str) :
  (forall c, head s = Some c -> sp c = false) ->
  (forall c, last s = Some c -> sp c = false) ->
  strip_by sp s = s.
Proof.
  intros Hhd Hlast. unfold strip_by.
  assert (Hl : forall t : str,
            (forall c, head t = Some c -> sp c = false) ->
            lstrip_by sp t = t).
  { intros [|c t] Ht; [reflexivity|]. cbn [lstrip_by].
    now rewrite (Ht c eq_refl). }
  rewrite (Hl s Hhd), Hl; [apply rev_involutive|].
  intros c Hc. apply Hlast.
  rewrite <- (rev_involutive s).
  destruct (rev s) as [|x u]; [discriminate Hc|].
  cbn [rev]. rewrite last_snoc. exact Hc.
Qed.

Lemma strip_idempotent (s : str) : strip (strip s) = strip s.
Proof.
  destruct (strip_by_spec isspace s) as (l & r & _ & _ & _ & Hhd & Hlast).
  now apply strip_by_fixed.
Qed.

Lemma uint_digits_no_dot (u : Decimal.uint) : chr_dot ∉ uint_digits u.
Proof.
  induction u; cbn [uint_digits];
    [apply not_elem_of_nil|..];
    (apply not_elem_of_cons; split; [discriminate|assumption]).
Qed.

Lemma str_of_int_no_dot (z : Z) : chr_dot ∉ str_of_int z.
Proof.
  unfold str_of_int. destruct (Z.to_int z);
    [apply uint_digits_no_dot|].
  apply not_elem_of_cons. split; [discriminate|apply uint_digits_no_dot].
Qed.

(** The period the collector writes after the number is the first of
    the line, so the content read back is the overlay comment, trimmed,
    whatever periods it holds. *)
Lemma danmu_line_content (idx : Z) (danmu : str) :
  Qgqx.line_content (Pa.danmu_line idx danmu) = strip danmu.
Proof.
  rewrite (line_content_split _ (str_of_int idx)
             ([chr_space] ++ danmu ++ [chr_lf])).
  - apply strip_by_padded; repeat constructor.
  - reflexivity.
  - apply str_of_int_no_dot.
Qed.

Lemma universal_newlines_id (s : str) :
  chr_cr ∉ s -> universal_newlines s = s.
Proof.
  induction s as [|c s IH]; intros Hs; [reflexivity|].
  apply not_elem_of_cons in Hs as [Hc Hs].
  cbn [universal_newlines].
  destruct (N.eqb_spec c chr_cr); [congruence|].
  now rewrite IH.
Qed.

Lemma split_lines_line (body rest : str) :
  chr_lf ∉ body ->
  split_lines ((body ++ [chr_lf]) ++ rest)
  = (body ++ [chr_lf]) :: split_lines rest.
Proof.
  induction body as [|c body IH]; intros Hb; [reflexivity|].
  apply not_elem_of_cons in Hb as [Hc Hb].
  cbn [app split_lines].
  destruct (N.eqb_spec c chr_lf); [congruence|].
  cbn [app] in IH. now rewrite IH.
Qed.

Lemma split_lines_concat (bodies : list str) :
  Forall (fun b => chr_lf ∉ b) bodies ->
  split_lines (concat ((fun b => b ++ [chr_lf]) <$> bodies))
  = (fun b => b ++ [chr_lf]) <$> bodies.
Proof.
  induction 1 as [|b bodies Hb _ IH]; [reflexivity|].
  cbn [fmap list_fmap concat].
  rewrite split_lines_line by assumption. now f_equal.
Qed.

Lemma not_elem_of_app_3 (c : char) (a b d : str) :
  c ∉ a -> c ∉ b -> c ∉ d -> c ∉ a ++ b ++ d.
Proof.
  intros Ha Hb Hd H.
  apply elem_of_app in H as [H|H]; [now apply Ha|].
  apply elem_of_app in H as [H|H]; [now apply Hb|now apply Hd].
Qed.

Lemma uint_digits_no_break (u : Decimal.uint) :
  (chr_lf ∉ uint_digits u) /\ (chr_cr ∉ uint_digits u).
Proof.
  induction u as [|u [IH1 IH2]|u [IH1 IH2]|u [IH1 IH2]|u [IH1 IH2]
                  |u [IH1 IH2]|u [IH1 IH2]|u [IH1 IH2]|u [IH1 IH2]
                  |u [IH1 IH2]|u [IH1 IH2]];
    cbn [uint_digits];
    [split; apply not_elem_of_nil|..];
    (split; apply not_elem_of_cons; split; (discriminate || assumption)).
Qed.

Lemma str_of_int_no_break (z : Z) :
  (chr_lf ∉ str_of_int z) /\ (chr_cr ∉ str_of_int z).
Proof.
  unfold str_of_int.
  destruct (Z.to_int z) as [u|u]; destruct (uint_digits_no_break u) as [H1 H2];
    [now split|].
  split; apply not_elem_of_cons; split; (discriminate || assumption).
Qed.

Lemma separator_no_break :
  (chr_lf ∉ utf8 ". ") /\ (chr_cr ∉ utf8 ". ").
Proof.
  change (utf8 ". ") with [chr_dot; chr_space].
  split; intros H; rewrite !elem_of_cons, elem_of_nil in H;
    destruct H as [H|[H|[]]]; discriminate H.
Qed.

Lemma enumerate_danmu_lines (k : Z) (data : list str) :
  enumerate k (Pa.danmu_lines k data)
  = (fun id => (id.1, Pa.danmu_line id.1 id.2)) <$> enumerate k data.
Proof.
  revert k. induction data as [|d data IH]; intros k; [reflexivity|].
  unfold Pa.danmu_lines in *. cbn [enumerate fmap list_fmap fst snd].
  now rewrite IH.
Qed.

Lemma not_elem_of_concat (c : char) (ls : list str) :
  Forall (fun l => c ∉ l) ls -> c ∉ concat ls.
Proof.
  induction 1 as [|l ls Hl _ IH]; cbn [concat]; [apply not_elem_of_nil|].
  intros Hin. apply elem_of_app in Hin as [Hin|Hin]; [now apply Hl|now apply IH].
Qed.

(** A file of overlay comments without line breaks is read back line
    for line. *)
Lemma readlines_saved (data : list str) :
  Forall (fun d => (chr_lf ∉ d) /\ (chr_cr ∉ d)) data ->
  readlines (Pa.save_danmu_text data) = Pa.danmu_lines 1 data.
Proof.
  intros Hdata. unfold readlines, Pa.save_danmu_text. fold (Pa.danmu_lines 1 data).
  assert (Hbodies : forall k,
    Forall (fun b => (chr_lf ∉ b) /\ (chr_cr ∉ b))
      ((fun id => str_of_int id.1 ++ utf8 ". " ++ id.2) <$> enumerate k data)).
  { induction Hdata as [|d data [Hd1 Hd2] _ IH]; intros k; [constructor|].
    cbn [enumerate fmap list_fmap fst snd]. constructor; [|apply IH].
    destruct (str_of_int_no_break k) as [H1 H2].
    destruct separator_no_break as [H3 H4].
    split; apply not_elem_of_app_3; assumption. }
  assert (Hgen : forall k,
    Pa.danmu_lines k data
    = (fun b => b ++ [chr_lf])
        <$> ((fun id => str_of_int id.1 ++ utf8 ". " ++ id.2)
               <$> enumerate k data)).
  { intros k. unfold Pa.danmu_lines. rewrite <- list_fmap_compose.
    apply list_fmap_ext. intros _ [i d] _. cbn [compose fst snd].
    unfold Pa.danmu_line. now rewrite <- !app_assoc. }
  rewrite universal_newlines_id.
  - rewrite (Hgen 1). apply split_lines_concat.
    eapply Forall_impl; [apply Hbodies|]. now intros b [H _].
  - rewrite (Hgen 1). apply not_elem_of_concat.
    apply Forall_fmap. eapply Forall_impl; [apply (Hbodies 1)|].
    intros b [_ Hcr]. cbn. intros Hin.
    apply elem_of_app in Hin as [Hin|Hin]; [now apply Hcr|].
    apply list_elem_of_singleton in Hin. discriminate Hin.
Qed.

End SaveRead.

(** Overlay comments without line breaks are read back from the file
    the collector writes, one row for each, in order: the content of
    row k is the k-th comment, trimmed, also when it holds periods, and
    its time is (k-1) mod 1000. *)
Theorem saved_danmu_read_back (data : list str) :
  Forall (fun d => (chr_lf ∉ d) /\ (chr_cr ∉ d)) data ->
  Qgqx.read_danmu_file (readlines (Pa.save_danmu_text data))
  = (fun kd => {| Qgqx.content := strip kd.2;
                  Qgqx.time := (kd.1 - 1) mod 1000 |})
      <$> enumerate 1 data.
Proof.
  intros Hdata. rewrite readlines_saved by assumption.
  rewrite read_danmu_file_rows, enumerate_danmu_lines, <- list_fmap_compose.
  apply list_fmap_ext. intros _ [k d] _. unfold Qgqx.row_of. cbn [compose fst snd].
  now rewrite danmu_line_content.
Qed.

Lemma saved_danmu_read_back_witness :
  Qgqx.read_danmu_file
    (readlines (Pa.save_danmu_text [utf8 " 3.5 stars! "; utf8 "666"]))
  = (fun kd => {| Qgqx.content := strip kd.2;
                  Qgqx.time := (kd.1 - 1) mod 1000 |})
      <$> enumerate 1 [utf8 " 3.5 stars! "; utf8 "666"].
Proof.
  apply (saved_danmu_read_back [utf8 " 3.5 stars! "; utf8 "666"]).
  repeat constructor; intros H; vm_compute in H;
    repeat (apply elem_of_cons in H as [H|H]; [discriminate H|]);
    now apply elem_of_nil in H.
Defined.

Section CollectorOutput.
Import Pa.

Lemma truthy_nonempty {A} (l : list A) : truthy l = true <-> l <> [].
Proof. destruct l; split; (discriminate || congruence || reflexivity). Qed.

Lemma collect_danmu_trimmed (d_tags : list (option str)) (acc : list str) :
  Forall trimmed_text acc ->
  Forall trimmed_text (collect_danmu d_tags acc).2.
Proof.
  revert acc. induction d_tags as [|[text|] d_tags IH]; intros acc Hacc;
    cbn [collect_danmu snd]; try assumption.
  destruct (truthy (strip text)) eqn:Ht; [|now apply IH].
  apply IH. apply Forall_app. split; [assumption|].
  constructor; [|constructor].
  split; [now apply truthy_nonempty|apply strip_idempotent].
Qed.

Lemma collect_danmu_all_text (texts : list str) (acc : list str) :
  collect_danmu (Some <$> texts) acc
  = (None, acc ++ List.filter truthy (strip <$> texts)).
Proof.
  revert acc. induction texts as [|t texts IH]; intros acc;
    cbn [fmap list_fmap collect_danmu List.filter].
  - now rewrite app_nil_r.
  - destruct (truthy (strip t)); rewrite IH; [|reflexivity].
    now rewrite <- app_assoc.
Qed.

Lemma add_replies_acc (replies : list reply_item) (acc : list comment) :
  add_replies replies acc
  = ((add_replies replies []).1, acc ++ (add_replies replies []).2).
Proof.
  revert acc. induction replies as [|[r|] replies IH]; intros acc;
    cbn [add_replies c_message fst snd app].
  - now rewrite app_nil_r.
  - destruct (local_time r) as [e|published]; cbn [fst snd];
      [now rewrite app_nil_r|].
    destruct (truthy (strip (message r))).
    + rewrite (IH (acc ++ _)), (IH [_]). cbn [fst snd].
      now rewrite <- app_assoc.
    + apply IH.
  - now rewrite app_nil_r.
Qed.

Lemma add_replies_kept (replies : list reply_item) (acc : list comment) :
  Forall kept_comment acc -> Forall kept_comment (add_replies replies acc).2.
Proof.
  revert acc. induction replies as [|[r|] replies IH]; intros acc Hacc;
    cbn [add_replies c_message snd]; try assumption.
  destruct (local_time r) as [e|published]; [assumption|].
  destruct (truthy (strip (message r))) eqn:Ht; [|now apply IH].
  apply IH. apply Forall_app. split; [assumption|].
  constructor; [|constructor]. unfold kept_comment. cbn [c_message].
  split; [now apply truthy_nonempty|apply strip_idempotent].
Qed.

Lemma appended_kept (r : page_response) : Forall kept_comment (appended r).
Proof.
  destruct r as [|code replies]; cbn [appended]; [constructor|].
  destruct (negb (code =? 0)); [constructor|].
  apply add_replies_kept. constructor.
Qed.

(** The list the loop returns is what the requests made appended, in
    the order of the requests. *)
Lemma crawl_loop_comments (responses : nat -> page_response)
  (fuel a : nat) (p : Z) (acc : list comment) (o : outcome) :
  crawl_loop fuel responses a p acc = Some o ->
  (a <= requests o)%nat
  /\ comments o
     = acc ++ concat ((fun n => appended (responses n))
                        <$> seq a (requests o - a)).
Proof.
  revert a p acc. induction fuel as [|fuel IH]; intros a p acc Hrun;
    [discriminate Hrun|].
  rewrite crawl_loop_S in Hrun.
  assert (Hnext : forall p' acc',
            crawl_loop fuel responses (S a) p' acc' = Some o ->
            acc' = acc ++ appended (responses a) ->
            (a <= requests o)%nat
            /\ comments o
               = acc ++ concat ((fun n => appended (responses n))
                                  <$> seq a (requests o - a))).
  { intros p' acc' Hrec ->. apply IH in Hrec as [Hle ->]. split; [lia|].
    replace (requests o - a)%nat with (S (requests o - S a)) by lia.
    cbn [seq fmap list_fmap concat]. now rewrite <- app_assoc. }
  assert (Hbreak : forall r,
            appended (responses a) = [] ->
            Some {| reason := r; requests := S a; pages := p;
                    comments := acc |} = Some o ->
            (a <= requests o)%nat
            /\ comments o
               = acc ++ concat ((fun n => appended (responses n))
                                  <$> seq a (requests o - a))).
  { intros r Happ [= <-]. cbn [requests comments]. split; [lia|].
    replace (S a - a)%nat with 1%nat by lia.
    cbn [seq fmap list_fmap concat]. rewrite Happ. now rewrite !app_nil_r. }
  destruct (p <? max_page).
  2:{ injection Hrun as <-. cbn [requests comments]. split; [lia|].
      rewrite Nat.sub_diag. cbn. now rewrite app_nil_r. }
  destruct (responses a) as [|code replies] eqn:Hresp.
  - apply (Hnext _ _ Hrun). cbn [appended]. now rewrite app_nil_r.
  - destruct (negb (code =? 0)) eqn:Hcode.
    { apply (Hbreak StopStatus); [|exact Hrun]. cbn [appended].
      now rewrite Hcode. }
    destruct (truthy replies) eqn:Hrep; cbn [negb] in Hrun.
    2:{ apply (Hbreak StopEmpty); [|exact Hrun]. cbn [appended].
        rewrite Hcode. now destruct replies. }
    rewrite add_replies_acc in Hrun.
    destruct (add_replies replies []) as [[e|] added] eqn:Hadd;
      cbn [fst snd] in Hrun;
      apply (Hnext _ _ Hrun); cbn [appended]; now rewrite Hcode, Hadd.
Qed.

Lemma crawl_danmu_nonblank (f : danmu_fetch) :
  Forall trimmed_text (crawl_danmu f).
Proof.
  unfold crawl_danmu. destruct f as [| |d_tags];
    cbn [crawl_danmu_try snd]; try constructor.
  apply collect_danmu_trimmed. constructor.
Qed.

Lemma crawl_comments_kept (responses : nat -> page_response) (fuel : nat)
  (o : outcome) :
  crawl_comments_run fuel responses = Some o ->
  Forall kept_comment (comments o).
Proof.
  intros Hrun. destruct (crawl_loop_comments _ _ _ _ _ _ Hrun) as [_ ->].
  cbn [app]. apply Forall_concat. apply Forall_fmap.
  apply Forall_forall. intros n _. apply appended_kept.
Qed.

End CollectorOutput.

(** Whatever the XML request brings back, every overlay comment
    [crawl_danmu] returns is non-empty and trimmed; when every element
    has a text, the result is the trimmed texts that are not empty, in
    document order. *)
Theorem crawl_danmu_entries (f : Pa.danmu_fetch) (texts : list str) :
  Forall trimmed_text (Pa.crawl_danmu f)
  /\ Pa.crawl_danmu (Pa.Parsed (Some <$> texts))
     = List.filter truthy (strip <$> texts).
Proof.
  split.
  - unfold Pa.crawl_danmu. destruct f as [| |d_tags];
      cbn [Pa.crawl_danmu_try snd]; try constructor.
    apply collect_danmu_trimmed. constructor.
  - unfold Pa.crawl_danmu. cbn [Pa.crawl_danmu_try].
    now rewrite collect_danmu_all_text.
Qed.



(** [main] stops after the lookup when no content id comes back: it
    crawls nothing and saves nothing. Otherwise a list of overlay
    comments it saves is the non-empty list [crawl_danmu] returned, and
    a list of replies it saves is the non-empty list [crawl_comments]
    returned; neither holds an empty or untrimmed text. *)
Theorem main_saves_kept_lists (w : Pa.world) (fuel : nat) :
  (Pa.lookup w = Pa.LookupRaises -> Pa.main w fuel = [Pa.GetCid])
  /\ (forall code cid, Pa.lookup w = Pa.LookupJson code cid -> code <> 0 ->
        Pa.main w fuel = [Pa.GetCid])
  /\ (forall data, Pa.SaveDanmu data ∈ Pa.main w fuel ->
        data = Pa.crawl_danmu (Pa.danmu w)
        /\ data <> [] /\ Forall trimmed_text data)
  /\ (forall data, Pa.SaveComments data ∈ Pa.main w fuel ->
        Pa.crawl_comments fuel (Pa.comment_pages w) = Some data
        /\ data <> [] /\ Forall Pa.kept_comment data).
Proof.
  split; [|split].
  { intros Hl. unfold Pa.main. now rewrite Hl. }
  { intros code cid Hl Hcode. unfold Pa.main. rewrite Hl.
    cbn [Pa.get_video_cid]. now destruct (Z.eqb_spec code 0). }
  unfold Pa.main.
  destruct (negb (truthy (Pa.get_video_cid (Pa.lookup w)))).
  { split; intros data Hin; apply list_elem_of_singleton in Hin;
      discriminate Hin. }
  split.
  - intros data Hin.
    assert (Hsaved : Pa.SaveDanmu data
              ∈ (if truthy (Pa.crawl_danmu (Pa.danmu w))
                 then [Pa.SaveDanmu (Pa.crawl_danmu (Pa.danmu w))] else [])).
    { destruct (Pa.crawl_comments fuel (Pa.comment_pages w)) as [cl|];
        cbn [app] in Hin;
        repeat (apply elem_of_cons in Hin as [Hin|Hin]; [discriminate Hin|]);
        apply elem_of_app in Hin as [Hin|Hin]; try exact Hin;
        repeat (apply elem_of_cons in Hin as [Hin|Hin]; [discriminate Hin|]).
      - apply elem_of_app in Hin as [Hin|Hin].
        + destruct (truthy cl); [|now apply elem_of_nil in Hin].
          apply list_elem_of_singleton in Hin. discriminate Hin.
        + apply list_elem_of_singleton in Hin. discriminate Hin.
      - now apply elem_of_nil in Hin. }
    destruct (truthy (Pa.crawl_danmu (Pa.danmu w))) eqn:Ht;
      [|now apply elem_of_nil in Hsaved].
    apply list_elem_of_singleton in Hsaved. injection Hsaved as ->.
    split; [reflexivity|]. split; [now apply truthy_nonempty|].
    apply crawl_danmu_nonblank.
  - intros data Hin.
    destruct (Pa.crawl_comments fuel (Pa.comment_pages w)) as [cl|] eqn:Hcl.
    + cbn [app] in Hin.
      repeat (apply elem_of_cons in Hin as [Hin|Hin]; [discriminate Hin|]).
      apply elem_of_app in Hin as [Hin|Hin].
      { destruct (truthy (Pa.crawl_danmu (Pa.danmu w)));
          [|now apply elem_of_nil in Hin].
        apply list_elem_of_singleton in Hin. discriminate Hin. }
      apply elem_of_cons in Hin as [Hin|Hin]; [discriminate Hin|].
      apply elem_of_app in Hin as [Hin|Hin].
      2:{ apply list_elem_of_singleton in Hin. discriminate Hin. }
      destruct (truthy cl) eqn:Ht; [|now apply elem_of_nil in Hin].
      apply list_elem_of_singleton in Hin. injection Hin as ->.
      split; [reflexivity|]. split; [now apply truthy_nonempty|].
      unfold Pa.crawl_comments in Hcl.
      destruct (Pa.crawl_comments_run fuel (Pa.comment_pages w)) as [o|] eqn:Ho;
        [|discriminate Hcl].
      injection Hcl as <-. now apply (crawl_comments_kept _ _ _ Ho).
    + cbn [app] in Hin.
      repeat (apply elem_of_cons in Hin as [Hin|Hin]; [discriminate Hin|]).
      apply elem_of_app in Hin as [Hin|Hin].
      { destruct (truthy (Pa.crawl_danmu (Pa.danmu w)));
          [|now apply elem_of_nil in Hin].
        apply list_elem_of_singleton in Hin. discriminate Hin. }
      apply list_elem_of_singleton in Hin. discriminate Hin.
Qed.

(** *** The analysis *)

Section Analysis.
Import Qgqx.

Lemma time_stamp_range (i : Z) : 0 <= time_stamp i < 1000.
Proof. unfold time_stamp. apply Z.mod_pos_bound. lia. Qed.

Lemma cut_time_bins (v : Z) :
  0 <= v < 1000 -> cut time_bins v = Some (Z.to_nat (v / 50)).
Proof.
  intros Hv.
  change time_bins
    with [0; 50; 100; 150; 200; 250; 300; 350; 400; 450; 500; 550; 600;
          650; 700; 750; 800; 850; 900; 950; 1000].
  unfold cut. cbn [cut_from].
  pose proof (Z.mul_div_le v 50 ltac:(lia)) as Hq1.
  pose proof (Z.mul_succ_div_gt v 50 ltac:(lia)) as Hq2.
  generalize dependent (v / 50). intros q Hq1 Hq2.
  repeat match goal with
         | |- (if (?a <=? v) && (v <? ?b) then _ else _) = _ =>
             destruct (Z.leb_spec a v); [|lia];
             destruct (Z.ltb_spec v b); cbn [andb]; [f_equal; lia|]
         end.
  lia.
Qed.

Lemma classify_positive_iff (score : float) :
  classify_sentiment score = positive_label <-> float_gt score lit_0_6 = true.
Proof.
  destruct labels_distinct as (Hpn & Hpz & Hnz). rewrite classify_cases.
  destruct (float_gt score lit_0_6); [easy|].
  destruct (float_lt score lit_0_4); split; congruence.
Qed.

Lemma classify_negative_iff (score : float) :
  classify_sentiment score = negative_label
  <-> float_gt score lit_0_6 = false /\ float_lt score lit_0_4 = true.
Proof.
  destruct labels_distinct as (Hpn & Hpz & Hnz). rewrite classify_cases.
  destruct (float_gt score lit_0_6).
  - split; [congruence|]. intros [H _]. discriminate H.
  - destruct (float_lt score lit_0_4).
    + split; [now split|reflexivity].
    + split; [congruence|]. intros [_ H]. discriminate H.
Qed.


Lemma universal_newlines_nil (s : str) : universal_newlines s = [] -> s = [].
Proof.
  destruct s as [|c s]; [reflexivity|]. cbn [universal_newlines].
  destruct (c =? chr_cr)%N; discriminate.
Qed.

Lemma split_lines_nil (s : str) : split_lines s = [] -> s = [].
Proof.
  destruct s as [|c s]; [reflexivity|]. cbn [split_lines].
  destruct (c =? chr_lf)%N; [discriminate|].
  destruct (split_lines s); discriminate.
Qed.

Lemma save_danmu_text_nonempty (data : list str) :
  data <> [] -> readlines (Pa.save_danmu_text data) <> [].
Proof.
  intros Hd Hr. apply split_lines_nil, universal_newlines_nil in Hr.
  destruct data as [|d data]; [contradiction|].
  unfold Pa.save_danmu_text, Pa.danmu_line in Hr.
  cbn [enumerate fmap list_fmap concat fst snd] in Hr.
  apply app_eq_nil in Hr as [Hr _].
  apply app_eq_nil in Hr as [_ Hr].
  apply app_eq_nil in Hr as [_ Hr].
  apply app_eq_nil in Hr as [_ Hr]. discriminate Hr.
Qed.

Lemma analyze_rows (snownlp : str -> exc float) (lines : list str) :
  lines <> [] ->
  analyze_danmu_sentiment snownlp lines
  = inr (score_row snownlp <$> read_danmu_file lines).
Proof.
  intros Hl. unfold analyze_danmu_sentiment.
  replace (truthy (read_danmu_file lines)) with true; [reflexivity|].
  symmetry. apply truthy_nonempty. intros Hnil.
  apply (f_equal length) in Hnil.
  rewrite read_danmu_file_rows, length_fmap, enumerate_length in Hnil.
  destruct lines; [contradiction|discriminate Hnil].
Qed.

End Analysis.

(** The synthetic time of every line falls into one of the 20 bins of
    width 50 that [pd.cut] is given, the bin numbered time // 50; no row
    is left without a bin. *)
Theorem time_stamp_has_bin (i : Z) :
  cut Qgqx.time_bins (Qgqx.time_stamp i)
  = Some (Z.to_nat (Qgqx.time_stamp i / 50))
  /\ (Z.to_nat (Qgqx.time_stamp i / 50) < 20)%nat
  /\ length Qgqx.time_bins = 21%nat.
Proof.
  pose proof (time_stamp_range i) as Hr.
  split; [now apply cut_time_bins|]. split; [|reflexivity].
  assert (Qgqx.time_stamp i / 50 < 20)
    by (apply Z.div_lt_upper_bound; lia).
  pose proof (Z.div_pos (Qgqx.time_stamp i) 50 ltac:(lia) ltac:(lia)). lia.
Qed.


(** The class never goes down when the score goes up: with the classes
    ranked negative (0), neutral (1), positive (2), a finite score that
    is at most another never has the higher rank. *)
Theorem classify_sentiment_monotone (a b : Qgqx.float) (va vb : Q) :
  valid_binary Qgqx.prec Qgqx.emax a = true ->
  valid_binary Qgqx.prec Qgqx.emax b = true ->
  Qgqx.float_value a = Some va ->
  Qgqx.float_value b = Some vb ->
  (va <= vb)%Q ->
  Qgqx.class_rank (Qgqx.classify_sentiment a)
  <= Qgqx.class_rank (Qgqx.classify_sentiment b).
Proof.
  intros Ha Hb Hva Hvb Hle.
  pose proof (above_0_6 a va Ha Hva) as Hga.
  pose proof (above_0_6 b vb Hb Hvb) as Hgb.
  pose proof (below_0_4 a va Ha Hva) as Hla.
  pose proof (below_0_4 b vb Hb Hvb) as Hlb.
  assert (Hrank : Qgqx.class_rank Qgqx.positive_label = 2
                  /\ Qgqx.class_rank Qgqx.negative_label = 0
                  /\ Qgqx.class_rank Qgqx.neutral_label = 1)
    by (repeat split; vm_compute; reflexivity).
  destruct Hrank as (Rp & Rn & Rz).
  rewrite !classify_cases.
  destruct (Qgqx.float_gt a Qgqx.lit_0_6) eqn:Ga.
  - assert (Gb : Qgqx.float_gt b Qgqx.lit_0_6 = true).
    { apply Hgb. eapply Qlt_le_trans; [now apply Hga|exact Hle]. }
    rewrite Gb. lia.
  - destruct (Qgqx.float_lt a Qgqx.lit_0_4) eqn:La.
    + rewrite Rn. destruct (Qgqx.float_gt b Qgqx.lit_0_6); [lia|].
      destruct (Qgqx.float_lt b Qgqx.lit_0_4); lia.
    + destruct (Qgqx.float_gt b Qgqx.lit_0_6); [lia|].
      destruct (Qgqx.float_lt b Qgqx.lit_0_4) eqn:Lb; [|lia].
      exfalso. pose proof (proj1 Hlb eq_refl) as Hvb4.
      assert (Hva4 : (va < 4 # 10)%Q)
        by (eapply Qle_lt_trans; [exact Hle|exact Hvb4]).
      apply Hla in Hva4. discriminate Hva4.
Qed.

Lemma classify_sentiment_monotone_witness :
  Qgqx.class_rank (Qgqx.classify_sentiment Qgqx.lit_0_39)
  <= Qgqx.class_rank (Qgqx.classify_sentiment Qgqx.lit_0_61).
Proof.
  apply (classify_sentiment_monotone Qgqx.lit_0_39 Qgqx.lit_0_61
           (7025615418697974 # 2 ^ 54)%Q (5494391545392005 # 2 ^ 53)%Q);
    try reflexivity.
  vm_compute. discriminate.
Defined.

(** A file the collector saves can always be analysed: it is not empty,
    so the analysis returns rows instead of raising; and when no
    overlay comment holds a line break, the contents of the rows are
    the saved overlay comments, in order. *)
Theorem saved_file_is_analysable (w : Pa.world) (fuel : nat)
  (data : list str) (snownlp : str -> exc Qgqx.float) :
  Pa.SaveDanmu data ∈ Pa.main w fuel ->
  exists rows : list Qgqx.scored,
    Qgqx.analyze_danmu_sentiment snownlp
      (readlines (Pa.save_danmu_text data)) = inr rows
    /\ rows <> []
    /\ (Forall (fun d => (chr_lf ∉ d) /\ (chr_cr ∉ d)) data ->
        Qgqx.s_content <$> rows = data).
Proof.
  intros Hin.
  assert (Hdata : data <> [] /\ Forall trimmed_text data).
  { unfold Pa.main in Hin.
    destruct (negb (truthy (Pa.get_video_cid (Pa.lookup w)))).
    { apply list_elem_of_singleton in Hin. discriminate Hin. }
    assert (Hsaved : Pa.SaveDanmu data
              ∈ (if truthy (Pa.crawl_danmu (Pa.danmu w))
                 then [Pa.SaveDanmu (Pa.crawl_danmu (Pa.danmu w))] else [])).
    { destruct (Pa.crawl_comments fuel (Pa.comment_pages w)) as [cl|];
        cbn [app] in Hin;
        repeat (apply elem_of_cons in Hin as [Hin|Hin]; [discriminate Hin|]);
        apply elem_of_app in Hin as [Hin|Hin]; try exact Hin;
        repeat (apply elem_of_cons in Hin as [Hin|Hin]; [discriminate Hin|]).
      - apply elem_of_app in Hin as [Hin|Hin].
        + destruct (truthy cl); [|now apply elem_of_nil in Hin].
          apply list_elem_of_singleton in Hin. discriminate Hin.
        + apply list_elem_of_singleton in Hin. discriminate Hin.
      - now apply elem_of_nil in Hin. }
    destruct (truthy (Pa.crawl_danmu (Pa.danmu w))) eqn:Ht;
      [|now apply elem_of_nil in Hsaved].
    apply list_elem_of_singleton in Hsaved. injection Hsaved as ->.
    split; [now apply truthy_nonempty|apply crawl_danmu_nonblank]. }
  destruct Hdata as [Hne Htrim].
  pose proof (save_danmu_text_nonempty data Hne) as Hlines.
  eexists. split; [now apply analyze_rows|]. split.
  - intros Hnil. apply (f_equal length) in Hnil.
    rewrite length_fmap, read_danmu_file_rows, length_fmap, enumerate_length
      in Hnil.
    destruct (readlines (Pa.save_danmu_text data)); [contradiction|discriminate].
  - intros Hbreak. rewrite readlines_saved by assumption.
    rewrite read_danmu_file_rows, enumerate_danmu_lines.
    rewrite <- !list_fmap_compose.
    clear Hlines Hne Hin Hbreak. generalize 1.
    induction Htrim as [|d data [_ Hd] _ IH]; intros k; [reflexivity|].
    cbn [enumerate fmap list_fmap compose fst snd]. f_equal; [|apply IH].
    unfold Qgqx.score_row, Qgqx.row_of. cbn [Qgqx.s_content Qgqx.content snd].
    now rewrite danmu_line_content.
Qed.

Lemma saved_file_is_analysable_witness :
  exists rows : list Qgqx.scored,
    Qgqx.analyze_danmu_sentiment Qgqx.failing_scorer
      (readlines (Pa.save_danmu_text [utf8 "3.5 stars!"; utf8 "666"]))
    = inr rows
    /\ rows <> []
    /\ (Forall (fun d => (chr_lf ∉ d) /\ (chr_cr ∉ d))
          [utf8 "3.5 stars!"; utf8 "666"] ->
        Qgqx.s_content <$> rows = [utf8 "3.5 stars!"; utf8 "666"]).
Proof.
  apply (saved_file_is_analysable Pa.two_danmu_world 10
           [utf8 "3.5 stars!"; utf8 "666"] Qgqx.failing_scorer).
  vm_compute. apply list_elem_of_further, list_elem_of_further.
  apply list_elem_of_here.
Defined.

(** *** More on the search endpoint *)

Section SearchSound.
Import App.

Lemma enumerate_elem {A} (l : list A) (k i : Z) (x : A) :
  (i, x) ∈ enumerate k l ->
  k <= i < k + len l /\ l !! Z.to_nat (i - k) = Some x.
Proof.
  intros Hin. apply list_elem_of_lookup in Hin as [n Hn].
  rewrite enumerate_lookup in Hn.
  destruct (l !! n) as [y|] eqn:Hy; [|discriminate Hn].
  injection Hn as <- <-.
  pose proof (lookup_lt_Some _ _ _ Hy) as Hlt. unfold len.
  split; [lia|]. now replace (Z.to_nat (k + Z.of_nat n - k)) with n by lia.
Qed.

Lemma enumerate_filter_sorted {A} (f : Z * A -> bool) (l : list A) (k : Z) :
  StronglySorted Z.lt (fst <$> List.filter f (enumerate k l))
  /\ Forall (fun i => k <= i) (fst <$> List.filter f (enumerate k l)).
Proof.
  revert k. induction l as [|x l IH]; intros k;
    cbn [enumerate List.filter].
  - split; constructor.
  - destruct (IH (k + 1)) as [Hs Hf].
    assert (Hf' : Forall (fun i => k <= i)
                    (fst <$> List.filter f (enumerate (k + 1) l))).
    { eapply Forall_impl; [exact Hf|]. intros i Hi. cbn in Hi. lia. }
    destruct (f (k, x)); [|now split].
    cbn [fmap list_fmap fst]. split.
    + constructor; [exact Hs|].
      eapply Forall_impl; [exact Hf|]. intros i Hi. cbn in Hi. lia.
    + constructor; [lia|exact Hf'].
Qed.

Lemma filter_fmap {A B} (f : B -> bool) (g : A -> B) (l : list A) :
  List.filter f (g <$> l) = g <$> List.filter (fun x => f (g x)) l.
Proof.
  induction l as [|x l IH]; [reflexivity|].
  cbn [fmap list_fmap List.filter]. fold (g <$> l). rewrite IH.
  now destruct (f (g x)).
Qed.

Lemma all_hits_sound (keyword : str) (lines : list str) (h : hit) :
  h ∈ all_hits keyword lines ->
  1 <= index h <= len lines
  /\ exists line,
       lines !! Z.to_nat (index h - 1) = Some line
       /\ content h = line_content line
       /\ exists pre post, content h = pre ++ keyword ++ post.
Proof.
  unfold all_hits. intros Hin.
  apply list_elem_of_fmap in Hin as ([i line] & -> & Hin).
  apply list_elem_of_In, filter_In in Hin as [Hin Hm].
  apply list_elem_of_In, enumerate_elem in Hin as [Hi Hline].
  cbn [hit_of index content fst snd]. split; [lia|].
  exists line. split; [exact Hline|]. split; [reflexivity|].
  unfold matches, re_search_escaped in Hm. cbn [snd] in Hm.
  now apply str_in_spec.
Qed.

End SearchSound.

(** Whatever the limit, the hits the search loop returns are sound: each
    carries the number of a line of the file (from 1) and the content
    of that line, which holds the keyword as a block of consecutive
    characters; the hits come in strictly increasing line order, and
    there are at most max(1, limit) of them. For a non-empty keyword the
    response reports their number as total and the hits as data. *)
Theorem search_results_sound (a : App.artifacts) (keyword : str)
  (limit : Z) :
  len (App.search_results a keyword limit) <= Z.max 1 limit
  /\ StronglySorted Z.lt (App.index <$> App.search_results a keyword limit)
  /\ (forall h, h ∈ App.search_results a keyword limit ->
        1 <= App.index h <= len (App.bilibili_danmu a)
        /\ exists line,
             App.bilibili_danmu a !! Z.to_nat (App.index h - 1) = Some line
             /\ App.content h = App.line_content line
             /\ exists pre post, App.content h = pre ++ keyword ++ post)
  /\ (forall args : gmap str str,
        args !! App.k_keyword = Some keyword -> keyword <> [] ->
        App.args_get_int args App.k_limit 50 = limit ->
        App.body (App.search_keyword a args) !! App.k_total
        = Some (App.JInt (len (App.search_results a keyword limit)))
        /\ App.body (App.search_keyword a args) !! App.k_data
           = Some (App.JList
                     (App.hit_json <$> App.search_results a keyword limit))).
Proof.
  rewrite search_results_take.
  split; [|split; [|split]].
  - unfold len. rewrite length_take. lia.
  - rewrite fmap_take.
    apply (StronglySorted_app_1_l _ _
             (drop (Z.to_nat (Z.max 1 limit))
                (App.index <$> App.all_hits keyword (App.bilibili_danmu a)))).
    rewrite take_drop. unfold App.all_hits. rewrite <- list_fmap_compose.
    apply (enumerate_filter_sorted (App.matches keyword)).
  - intros h Hin. apply subseteq_take in Hin. now apply all_hits_sound.
  - intros args Hkw Hne <-.
    assert (Hget : App.args_get args App.k_keyword [] = keyword).
    { unfold App.args_get. now rewrite Hkw. }
    unfold App.search_keyword. rewrite Hget.
    destruct keyword as [|c keyword]; [contradiction|]. cbn [truthy negb].
    unfold App.jsonify. cbn [App.body]. rewrite search_results_take.
    split; now map_lookup.
Qed.

(** A limit parameter that [int] rejects counts as the default 50: the
    response is the one given when the parameter is left out. *)
Theorem malformed_limit_is_default (a : App.artifacts)
  (args : gmap str str) (v : str) (e : exn) :
  args !! App.k_limit = Some v ->
  int_of_str v = inl e ->
  App.args_get_int args App.k_limit 50 = 50
  /\ App.search_keyword a args
     = App.search_keyword a (delete App.k_limit args).
Proof.
  intros Hv He.
  assert (H50 : App.args_get_int args App.k_limit 50 = 50).
  { unfold App.args_get_int. now rewrite Hv, He. }
  split; [exact H50|].
  unfold App.search_keyword. rewrite H50.
  replace (App.args_get_int (delete App.k_limit args) App.k_limit 50) with 50.
  2:{ unfold App.args_get_int. now rewrite lookup_delete_eq. }
  replace (App.args_get (delete App.k_limit args) App.k_keyword [])
    with (App.args_get args App.k_keyword []); [reflexivity|].
  unfold App.args_get. now rewrite lookup_delete_ne by key_ne.
Qed.

Lemma malformed_limit_is_default_witness :
  App.args_get_int App.love_limit_ten App.k_limit 50 = 50
  /\ App.search_keyword App.cats_and_dogs App.love_limit_ten
     = App.search_keyword App.cats_and_dogs
         (delete App.k_limit App.love_limit_ten).
Proof.
  apply (malformed_limit_is_default App.cats_and_dogs App.love_limit_ten
           (utf8 "ten") ValueError).
  - vm_compute. reflexivity.
  - vm_compute. reflexivity.
Defined.

(** Searching the file the collector wrote: when no overlay comment
    holds a line break, the hits are the first max(1, limit) overlay
    comments whose trimmed text holds the keyword, each with its
    position in the collector's list (from 1) as index and its trimmed
    text as content. *)
Theorem search_saved_file (word_freq : list App.json) (sentiment : App.json)
  (data : list str) (keyword : str) (limit : Z) :
  Forall (fun d => (chr_lf ∉ d) /\ (chr_cr ∉ d)) data ->
  App.search_results
    (App.load word_freq sentiment (Pa.save_danmu_text data)) keyword limit
  = take (Z.to_nat (Z.max 1 limit))
      ((fun kd => {| App.index := kd.1; App.content := strip kd.2 |})
         <$> List.filter (fun kd => str_in keyword (strip kd.2))
               (enumerate 1 data)).
Proof.
  intros Hdata. rewrite search_results_take. f_equal.
  unfold App.load. cbn [App.bilibili_danmu].
  rewrite readlines_saved by assumption.
  unfold App.all_hits. rewrite enumerate_danmu_lines, filter_fmap.
  rewrite <- list_fmap_compose.
  assert (Hc : forall k d,
            App.line_content (Pa.danmu_line k d) = strip d).
  { intros k d. apply danmu_line_content. }
  replace (List.filter
             (fun x : Z * str =>
                App.matches keyword (x.1, Pa.danmu_line x.1 x.2))
             (enumerate 1 data))
    with (List.filter (fun kd : Z * str => str_in keyword (strip kd.2))
            (enumerate 1 data)).
  - apply list_fmap_ext. intros _ [k d] _.
    unfold App.hit_of. cbn [compose fst snd]. now rewrite Hc.
  - apply filter_ext. intros [k d]. unfold App.matches, re_search_escaped.
    cbn [fst snd]. now rewrite Hc.
Qed.

Lemma search_saved_file_witness :
  App.search_results
    (App.load [] App.JNull
       (Pa.save_danmu_text [utf8 "I love cats"; utf8 "3.5 stars, love it"]))
    (utf8 "love") 50
  = take (Z.to_nat (Z.max 1 50))
      ((fun kd => {| App.index := kd.1; App.content := strip kd.2 |})
         <$> List.filter (fun kd => str_in (utf8 "love") (strip kd.2))
               (enumerate 1 [utf8 "I love cats"; utf8 "3.5 stars, love it"])).
Proof.
  apply (search_saved_file [] App.JNull
           [utf8 "I love cats"; utf8 "3.5 stars, love it"] (utf8 "love") 50).
  repeat constructor; intros H; vm_compute in H;
    repeat (apply elem_of_cons in H as [H|H]; [discriminate H|]);
    now apply elem_of_nil in H.
Defined.

(** *** More on the word-frequency report *)

Section ReportEntries.
Import Qgqx.

Lemma split_first (sep : char) (s : str) :
  exists w rest,
    split sep s = w :: rest
    /\ (sep ∉ w)
    /\ (forall c, head s = Some c -> c <> sep -> head w = Some c).
Proof.
  induction s as [|c s (w & rest & Hs & Hw & _)]; cbn [split].
  - exists [], []. split; [reflexivity|]. split; [apply not_elem_of_nil|].
    discriminate.
  - destruct (N.eqb_spec c sep) as [->|Hne].
    + eexists [], _. split; [reflexivity|]. split; [apply not_elem_of_nil|].
      intros c [= <-] Hc. contradiction.
    + rewrite Hs. exists (c :: w), rest. split; [reflexivity|]. split.
      * apply not_elem_of_cons. split; [congruence|exact Hw].
      * intros c' [= <-] _. reflexivity.
Qed.

Lemma report_row_word (line : str) (e : word_freq) :
  report_row line = Some e -> word_ok e.
Proof.
  unfold report_row.
  destruct (str_in word_label line && str_in freq_label line); [discriminate|].
  destruct (truthy (strip line)) eqn:Ht; cbn [negb]; [|discriminate].
  destruct (strip_by_spec isspace line) as (l & r & _ & _ & _ & Hhd & _).
  fold (strip line) in Hhd.
  destruct (split_first chr_tab (strip line)) as (w & rest & Hs & Hw & Hfirst).
  rewrite Hs. destruct rest as [|f_text rest]; [discriminate|].
  destruct (int_of_str f_text); [discriminate|]. intros [= <-].
  unfold word_ok. cbn [word].
  destruct (strip line) as [|c t] eqn:Hstrip; [discriminate Ht|].
  assert (Hc : isspace c = false) by (now apply Hhd).
  assert (Hw1 : head w = Some c).
  { apply Hfirst; [reflexivity|]. intros ->. discriminate Hc. }
  split; [intros ->; discriminate Hw1|]. split; [exact Hw|].
  intros c' Hc'. rewrite Hw1 in Hc'. now injection Hc' as <-.
Qed.

Lemma length_omap_le {A B} (f : A -> option B) (l : list A) :
  (length (omap f l) <= length l)%nat.
Proof.
  induction l as [|x l IH]; cbn [omap list_omap length]; [lia|].
  destruct (f x); cbn [length]; lia.
Qed.

End ReportEntries.

(** The exported word list holds at most as many entries as the report
    has lines after the first two, and the word of every entry is not
    empty, holds no tab and does not start with whitespace. *)
Theorem word_report_entries (lines : list str) :
  exists entries : list Qgqx.word_freq,
    Qgqx.export_word_freq_data lines = inr entries
    /\ (length entries <= length lines - 2)%nat
    /\ Forall Qgqx.word_ok entries.
Proof.
  eexists. split; [apply export_word_freq_data_rows|]. split.
  - etransitivity; [apply length_omap_le|]. now rewrite length_drop.
  - apply Forall_forall. intros e He.
    apply list_elem_of_omap in He as (line & _ & Hrow).
    now apply (report_row_word line).
Qed.

(** *** Counting the requests of the reply loop *)

Section Requests.
Import Pa.

Lemma done_or_raises (r : page_response) :
  terminal r = None ->
  (if page_done r then 1 else 0) + (if attempt_raises r then 1 else 0) = 1.
Proof.
  destruct r as [|code replies]; cbn [terminal page_done attempt_raises];
    [reflexivity|].
  destruct (code =? 0); cbn [negb andb]; [|discriminate].
  destruct (truthy replies); cbn [negb andb]; [|discriminate].
  intros _. now destruct (existsb reply_raises replies).
Qed.

Lemma terminal_no_raise (r : page_response) (s : stop) :
  terminal r = Some s -> attempt_raises r = false.
Proof.
  destruct r as [|code replies]; cbn [terminal attempt_raises];
    [discriminate|].
  destruct (code =? 0); cbn [negb andb]; [|reflexivity].
  destruct (truthy replies); cbn [negb andb]; [discriminate|reflexivity].
Qed.

Lemma requests_accounting (responses : nat -> page_response) (n : nat) :
  (forall i : nat, (i < n)%nat -> terminal (responses i) = None) ->
  Z.of_nat n = pages_done responses n + raised_before responses n.
Proof.
  induction n as [|n IH]; intros Hterm; [reflexivity|].
  cbn [pages_done raised_before].
  pose proof (done_or_raises (responses n) (Hterm n ltac:(lia))) as H1.
  specialize (IH (fun i Hi => Hterm i ltac:(lia))). lia.
Qed.

End Requests.

(** When the reply loop ends, the requests it made are the pages
    completed, plus the requests that ended in an exception, plus the
    one request answered by the page that made it [break] (none when
    it was left at the cap); so it made at most 101 requests more than
    there were exceptions. *)
Theorem crawl_comments_requests (responses : nat -> Pa.page_response)
  (fuel : nat) (o : Pa.outcome) :
  Pa.crawl_comments_run fuel responses = Some o ->
  Z.of_nat (Pa.requests o)
  = Pa.pages o + Pa.raised_before responses (Pa.requests o)
    + Pa.by_break (Pa.reason o)
  /\ Z.of_nat (Pa.requests o)
     <= Pa.max_page + 1 + Pa.raised_before responses (Pa.requests o).
Proof.
  intros Hrun. unfold Pa.crawl_comments_run in Hrun.
  destruct (crawl_loop_stops_first responses _ _ _ _ _ Hrun)
    as [(n & Hp & Hbefore & Hend) _].
  { reflexivity. }
  { unfold Pa.max_page. lia. }
  { intros i Hi. lia. }
  pose proof (requests_accounting responses n
                (fun i Hi => proj1 (Hbefore i Hi))) as Hacc.
  destruct Hend as [(Hr & Hd & Hn)|(Hd & Hterm & Hn)]; rewrite Hn.
  - rewrite Hr. cbn [Pa.by_break]. lia.
  - cbn [Pa.raised_before].
    rewrite (terminal_no_raise _ _ Hterm).
    assert (Hb : Pa.by_break (Pa.reason o) = 1).
    { destruct (Pa.reason o); [reflexivity|reflexivity|].
      destruct (responses n) as [|code replies]; [discriminate Hterm|].
      cbn [Pa.terminal] in Hterm.
      destruct (negb (code =? 0)); [discriminate Hterm|].
      destruct (negb (truthy replies)); discriminate Hterm. }
    rewrite Hb. lia.
Qed.

Lemma crawl_comments_requests_witness :
  Z.of_nat 3 = 1 + Pa.raised_before Pa.retried_page 3
               + Pa.by_break Pa.StopEmpty
  /\ Z.of_nat 3 <= Pa.max_page + 1 + Pa.raised_before Pa.retried_page 3.
Proof.
  apply (crawl_comments_requests Pa.retried_page 5
           {| Pa.reason := Pa.StopEmpty; Pa.requests := 3; Pa.pages := 1;
              Pa.comments := [Pa.sample_comment; Pa.sample_comment] |}).
  vm_compute. reflexivity.
Defined.
